(** * Fallout 4 ESM Patcher: version resolution and the patch transaction

    A shallow embedding of the core of [esm_patcher.py] (class [ESMPatcher])
    and the properties of its version resolver, backup manager and patch
    application, followed by their callers: the dependency check, the
    command line of [main], and the analysis, target choice and patch
    action of the window ([PatcherGUI]).

    Modelling conventions.
    - The file system is a finite map from paths to file contents.  The
      patcher never looks inside a file: it observes a file's size
      ([os.path.getsize]) and its MD5 digest ([hashlib.md5]).  File contents
      are therefore kept as an arbitrary type [B] with these two
      observations (class [FileData]); two files are byte-identical exactly
      when their contents are equal.  Only regular files are modelled, and
      file metadata (times, permissions) is not.
    - The file system is ideal: an operation raises only for the reason
      visible in the file system state (a missing file).  The user's answer
      to a dialog and the behaviour of the external [xdelta3] process are
      oracles.
    - Python exceptions are values of [exn]; methods that mutate the disk or
      the patcher object run in a state-and-exception monad [M].
    - Logging and the optional progress callback have no influence on any
      returned value or on the disk and are left out. *)

From stdpp Require Import base strings gmap list pretty.
From Stdlib Require Import ZArith Lia Ascii String.

Local Open Scope string_scope.
Local Open Scope Z_scope.

(** ** File contents as the patcher observes them *)

Class FileData (B : Type) := {
  getsize : B → Z;
  md5_hexdigest : B → string;
  getsize_nonneg : ∀ b, 0 ≤ getsize b
}.

(** A file reduced to the two observations the patcher makes of it. *)
Record stat_blob := StatBlob { blob_size : N; blob_md5 : string }.

#[export] Instance stat_blob_data : FileData stat_blob := {|
  getsize b := Z.of_N (blob_size b);
  md5_hexdigest := blob_md5;
  getsize_nonneg b := N2Z.is_nonneg (blob_size b)
|}.

(** ** Python dictionaries with insertion order *)

Module dict.
Definition t (V : Type) := list (string * V).

Fixpoint get {V} (d : t V) (k : string) : option V :=
  match d with
  | [] => None
  | (k', v) :: d' => if String.eqb k' k then Some v else get d' k
  end.

Definition keys {V} (d : t V) : list string := map fst d.
End dict.

(** ** Static tables of [ESMPatcher] *)

Definition VERSION_NG : string := "nextgen".
Definition VERSION_OLD : string := "1.10.163".

Record version_entry := VersionEntry {
  ve_version : string;
  ve_display : string;
  ve_patches_to : dict.t string
}.

Definition ESM_VERSIONS : gmap Z version_entry :=
  <[ 330777465 := VersionEntry "nextgen" "Next-Gen"
        [("1.10.163", "fallout4_323025.xdelta")] ]>
  (<[ 330553163 := VersionEntry "vr" "Fallout 4 VR"
        [("1.10.163", "fallout4_322806.xdelta");
         ("nextgen", "fallout4_vr_to_ng.xdelta")] ]>
  (<[ 330745373 := VersionEntry "1.10.163" "1.10.163 (Old-Gen)"
        [("nextgen", "fallout4_old_to_ng.xdelta")] ]> ∅)).

Record legacy_patch := LegacyPatch {
  lp_patch : string;
  lp_description : string;
  lp_md5 : string
}.

Definition PATCH_MAPPINGS : gmap Z legacy_patch :=
  <[ 330777465 := LegacyPatch "fallout4_323025.xdelta" "Next-Gen"
        "a5c13fb8c0e2e9c7c0c8e6f9d4b5a3e2" ]>
  (<[ 330553163 := LegacyPatch "fallout4_322806.xdelta" "Fallout 4 VR"
        "b7d24fa9e1d3c8b6a4f5e7c9d2a1b3c4" ]> ∅).

(** The local list [known_patched_sizes], written out identically in
    [identify_esm_version] and in [detect_esm_version]. *)
Definition known_patched_sizes : list (Z * string) :=
  [ (61741779, "VR-compatible version (58.9 MB)");
    (61598851, "VR-compatible version (58.7 MB)") ].

(** ** Text rendering *)

(** [f"{n:,}"]: decimal digits in groups of three, separated by commas. *)
Fixpoint commas_rev (l : list ascii) : list ascii :=
  match l with
  | a :: b :: c :: ((_ :: _) as rest) =>
      a :: b :: c :: ","%char :: commas_rev rest
  | _ => l
  end.

Definition format_grouped (n : Z) : string :=
  let digits := list_ascii_of_string (pretty (Z.abs n)) in
  let body := string_of_list_ascii (rev (commas_rev (rev digits))) in
  if n <? 0 then "-" +:+ body else body.

(** The separator written between source and target in a patch
    description: the bytes the source file has at that place. *)
Definition arrow : string :=
  String " " (String "195" (String "162" (String "226" (String "128"
  (String "160" (String "226" (String "128" (String "153"
  (String " " ""))))))))).

Definition newline : string := String "010" "".

(** The exceptions that can reach a handler of [ESMPatcher]:
    [subprocess.TimeoutExpired], and the other subclasses of
    [Exception]. *)
Inductive exn :=
| TimeoutExpired
| FileNotFoundError (filename : string)
| OSError (msg : string).

(** What depends on the platform the script runs on.  [format_mb n] is
    [f"{n/(1024*1024):.2f}"], a floating-point rendering; [os_path_join] is
    [os.path.join]; [exn_str] is [str(e)] of a caught exception. *)
Class Platform := {
  format_mb : Z → string;
  os_path_join : string → string → string;
  exn_str : exn → string
}.

(** ** Version resolution *)

Abbreviation disk_t B := (gmap string B).

Section resolver.
Context {B : Type} `{!FileData B} `{!Platform}.

(** The dictionary of [get_file_info]: [{"exists": False}], or the one
    with ["exists": True] and the file's size, digest and path.  Its
    ["size_mb"] entry, the float [size / (1024 * 1024)], is read by no
    method of [ESMPatcher] and is not kept. *)
Inductive file_info :=
| FileMissing
| FileInfo (size : Z) (md5 : string) (path : string).

Definition get_file_info (disk : disk_t B) (file_path : string) : file_info :=
  match disk !! file_path with
  | None => FileMissing
  | Some b => FileInfo (getsize b) (md5_hexdigest b) file_path
  end.

(** The dictionary returned by [detect_esm_version]; the ["size"] key is
    absent when the file does not exist. *)
Record version_info := VersionInfo {
  vi_exists : bool;
  vi_size : option Z;
  vi_version : option string;
  vi_display : string;
  vi_available_targets : list string;
  vi_patches : dict.t string
}.

(** The loop over [known_patched_sizes]: the description of the first
    reference size less than 1000 bytes away. *)
Fixpoint find_patched (sizes : list (Z * string)) (file_size : Z)
  : option string :=
  match sizes with
  | [] => None
  | (size, description) :: rest =>
      if Z.abs (file_size - size) <? 1000 then Some description
      else find_patched rest file_size
  end.

Definition detect_esm_version (disk : disk_t B) (esm_path : string)
  : version_info :=
  match get_file_info disk esm_path with
  | FileMissing => VersionInfo false None None "File does not exist" [] []
  | FileInfo file_size _ _ =>
      match ESM_VERSIONS !! file_size with
      | Some version_info =>
          VersionInfo true (Some file_size)
            (Some (ve_version version_info)) (ve_display version_info)
            (dict.keys (ve_patches_to version_info))
            (ve_patches_to version_info)
      | None =>
          match find_patched known_patched_sizes file_size with
          | Some description =>
              VersionInfo true (Some file_size) (Some "patched")
                description [] []
          | None =>
              VersionInfo true (Some file_size) None
                ("Unknown version (" +:+ format_grouped file_size +:+
                 " bytes / " +:+ format_mb file_size +:+ " MB)")
                [] []
          end
      end
  end.

(** The legacy resolver. *)
Definition identify_esm_version (disk : disk_t B) (esm_path : string)
  : bool * string * option legacy_patch :=
  match get_file_info disk esm_path with
  | FileMissing => (false, "File does not exist", None)
  | FileInfo file_size _ _ =>
      match PATCH_MAPPINGS !! file_size with
      | Some patch_info =>
          (true,
           "Next-Gen ESM detected (" +:+ lp_description patch_info +:+ ")",
           Some patch_info)
      | None =>
          match find_patched known_patched_sizes file_size with
          | Some description =>
              (false, "Already patched: " +:+ description, None)
          | None =>
              (false,
               "Unknown ESM version (size: " +:+ format_grouped file_size
                 +:+ " bytes)",
               None)
          end
      end
  end.

(** The dictionary returned by [get_patch_for_target]. *)
Record patch_info := PatchInfo {
  pi_patch : string;
  pi_description : string;
  pi_source_version : option string;
  pi_target_version : string
}.

Definition get_patch_for_target (disk : disk_t B) (esm_path : string)
    (target_version : string) : option patch_info :=
  let version_info := detect_esm_version disk esm_path in
  match dict.get (vi_patches version_info) target_version with
  | Some patch =>
      Some (PatchInfo patch
              (vi_display version_info +:+ arrow +:+ target_version)
              (vi_version version_info) target_version)
  | None => None
  end.

End resolver.

(** ** The state-and-exception monad of the mutating methods *)

(** The fields of an [ESMPatcher] object. *)
Record patcher := Patcher {
  assets_dir : string;
  xdelta_path : string;
  current_esm_path : option string;
  backup_created : bool
}.

Record world (B : Type) := World { self : patcher; disk : disk_t B }.
Arguments World {B} _ _.
Arguments self {B} _.
Arguments disk {B} _.

Inductive res (A : Type) :=
| Ret (a : A)
| Raise (e : exn).
Arguments Ret {A} _.
Arguments Raise {A} _.

Definition M (B A : Type) : Type := world B → res A * world B.

#[export] Instance M_ret {B} : MRet (M B) := λ A a w, (Ret a, w).

#[export] Instance M_bind {B} : MBind (M B) := λ A C f m w,
  match m w with
  | (Ret a, w') => f a w'
  | (Raise e, w') => (Raise e, w')
  end.

#[export] Instance M_throw {B} : MThrow exn (M B) := λ A e w, (Raise e, w).

(** [try: body except Exception as e: handler e]. *)
Definition try_except {B A} (body : M B A) (handler : exn → M B A) : M B A :=
  λ w, match body w with
       | (Ret a, w') => (Ret a, w')
       | (Raise e, w') => handler e w'
       end.

(** [ESMPatcher.__init__], given the assets directory. *)
Definition new_patcher `{!Platform} (assets : string) : patcher :=
  Patcher assets (os_path_join assets "xdelta3.exe") None false.

Definition get_self {B} : M B patcher := λ w, (Ret (self w), w).

Definition set_backup_created {B} (v : bool) : M B () := λ w,
  (Ret (),
   World (Patcher (assets_dir (self w)) (xdelta_path (self w))
            (current_esm_path (self w)) v)
         (disk w)).

(** *** File system primitives *)

Section os.
Context {B : Type} `{!FileData B}.

Definition os_path_exists (path : string) : M B bool := λ w,
  (Ret (bool_decide (is_Some (disk w !! path))), w).

Definition os_path_getsize (path : string) : M B Z := λ w,
  match disk w !! path with
  | Some b => (Ret (getsize b), w)
  | None => (Raise (FileNotFoundError path), w)
  end.

Definition os_remove (path : string) : M B () := λ w,
  match disk w !! path with
  | Some _ => (Ret (), World (self w) (delete path (disk w)))
  | None => (Raise (FileNotFoundError path), w)
  end.

Definition os_rename (src dst : string) : M B () := λ w,
  match disk w !! src with
  | Some b => (Ret (), World (self w) (<[dst := b]> (delete src (disk w))))
  | None => (Raise (FileNotFoundError src), w)
  end.

Definition shutil_copy2 (src dst : string) : M B () := λ w,
  match disk w !! src with
  | Some b => (Ret (), World (self w) (<[dst := b]> (disk w)))
  | None => (Raise (FileNotFoundError src), w)
  end.
End os.

(** *** The external process *)

(** How [subprocess.run] ends: a completed process with its return code
    and captured standard error, or an exception
    ([subprocess.TimeoutExpired] after 120 seconds, or an error starting
    the process). *)
Inductive proc_result :=
| Completed (returncode : Z) (stderr : string)
| ProcRaise (e : exn).

(** ** Backup, patch application and restore *)

Section transaction.
Context {B : Type} `{!FileData B} `{!Platform}.

(** The user's answer to [messagebox.askyesno title message]. *)
Variable askyesno : string → string → bool.

(** The run of a command line on a disk: how the process ends and the
    disk it leaves. *)
Variable subprocess_run : list string → disk_t B → proc_result * disk_t B.

(** [subprocess.run(cmd, capture_output=True, text=True, timeout=120)]. *)
Definition run_process (cmd : list string) : M B (Z * string) := λ w,
  match subprocess_run cmd (disk w) with
  | (Completed returncode stderr, d) =>
      (Ret (returncode, stderr), World (self w) d)
  | (ProcRaise e, d) => (Raise e, World (self w) d)
  end.

Definition create_backup (esm_path : string) : M B (bool * string) :=
  try_except
    (let backup_path := esm_path +:+ ".backup" in
     let copy : M B (bool * string) :=
       shutil_copy2 esm_path backup_path;;
       set_backup_created true;;
       mret (true, backup_path) in
     present ← os_path_exists backup_path;
     if present : bool then
       let response := askyesno "Backup Exists"
         ("A backup already exists at:" +:+ newline +:+ backup_path +:+
          newline +:+ newline +:+ "Overwrite it?") in
       if negb response then mret (false, "Backup cancelled by user")
       else copy
     else copy)
    (λ e, mret (false, exn_str e)).

(** The command line [cmd] built by [apply_patch]. *)
Definition xdelta_cmd (xdelta : string) (esm_path patch_path temp_output : string)
  : list string :=
  [xdelta; "-f"; "-d"; "-s"; esm_path; patch_path; temp_output].

(** The clean-up of both exception handlers of [apply_patch]:
    [if os.path.exists(temp_output): os.remove(temp_output)]. *)
Definition discard (temp_output : string) : M B () :=
  present ← os_path_exists temp_output;
  if present : bool then os_remove temp_output else mret ().

(** [apply_patch].  Its two first assignments cannot raise, so
    [temp_output] is bound when a handler runs. *)
Definition apply_patch (esm_path : string) (patch_info : patch_info)
  : M B (bool * string) :=
  let temp_output := esm_path +:+ ".patched" in
  try_except
    (this ← get_self;
     let patch_path := os_path_join (assets_dir this) (pi_patch patch_info) in
     let cmd := xdelta_cmd (xdelta_path this) esm_path patch_path temp_output in
     '(returncode, stderr) ← run_process cmd;
     if negb (returncode =? 0) then
       let error_msg :=
         "xdelta3 failed with return code " +:+ pretty returncode in
       let error_msg :=
         if String.eqb stderr "" then error_msg
         else error_msg +:+ newline +:+ "Error: " +:+ stderr in
       mret (false, error_msg)
     else
       present ← os_path_exists temp_output;
       if negb present then mret (false, "Patched file was not created")
       else
         patched_size ← os_path_getsize temp_output;
         if patched_size <? 50000000 then
           os_remove temp_output;;
           mret (false,
                 "Patched file is too small (" +:+ pretty patched_size +:+
                 " bytes)")
         else
           os_remove esm_path;;
           os_rename temp_output esm_path;;
           mret (true,
                 "Patch applied successfully!" +:+ newline +:+
                 "New file size: " +:+ format_grouped patched_size +:+
                 " bytes (" +:+ format_mb patched_size +:+ " MB)"))
    (λ e,
       match e with
       | TimeoutExpired =>
           discard temp_output;;
           mret (false, "Patching process timed out")
       | _ =>
           discard temp_output;;
           mret (false, exn_str e)
       end).

Definition restore_backup (esm_path : string) : M B (bool * string) :=
  let backup_path := esm_path +:+ ".backup" in
  present ← os_path_exists backup_path;
  if negb present then mret (false, "No backup file found")
  else
    try_except
      (live ← os_path_exists esm_path;
       (if live : bool then os_remove esm_path else mret ());;
       shutil_copy2 backup_path esm_path;;
       mret (true, "Successfully restored from backup"))
      (λ e, mret (false, exn_str e)).

(** The backup-then-patch sequence that [main] runs in command-line mode
    (and [PatcherGUI.apply_patch] in the window): the process exits with
    the backup's message, or with the message of [apply_patch]. *)
Inductive exit_status :=
| BackupFailed (backup_msg : string)
| PatchFailed (patch_msg : string)
| PatchSucceeded (patch_msg : string).

Definition main_patch (esm_path : string) (patch_info : patch_info)
  : M B exit_status :=
  '(success, backup_msg) ← create_backup esm_path;
  if negb success then mret (BackupFailed backup_msg)
  else
    '(success, patch_msg) ← apply_patch esm_path patch_info;
    if success : bool then mret (PatchSucceeded patch_msg)
    else mret (PatchFailed patch_msg).

End transaction.

(** The external tool contract: a run of the [xdelta3] command line
    changes no file other than its output file. *)
Definition writes_only_output {B}
    (run : list string → disk_t B → proc_result * disk_t B) : Prop :=
  ∀ xdelta src patch out d p,
    p ≠ out → (run (xdelta_cmd xdelta src patch out) d).2 !! p = d !! p.

(** The message [apply_patch] builds for a non-zero return code. *)
Definition failure_message (returncode : Z) (stderr : string) : string :=
  if String.eqb stderr "" then
    "xdelta3 failed with return code " +:+ pretty returncode
  else
    "xdelta3 failed with return code " +:+ pretty returncode +:+ newline
      +:+ "Error: " +:+ stderr.

(** A grouped number with its separators taken out again. *)
Definition strip_commas (s : string) : string :=
  string_of_list_ascii
    (filter (λ c, c ≠ ","%char) (list_ascii_of_string s)).

(** The command line that [apply_patch] runs for a patcher object. *)
Definition apply_patch_cmd `{!Platform} (this : patcher) (esm_path : string)
    (patch_info : patch_info) : list string :=
  xdelta_cmd (xdelta_path this) esm_path
    (os_path_join (assets_dir this) (pi_patch patch_info))
    (esm_path +:+ ".patched").

(** ** Dependency check *)

(** The items of the dictionary literal [PATCH_MAPPINGS], in the order in
    which [PATCH_MAPPINGS.values()] yields their values. *)
Definition PATCH_MAPPINGS_items : list (Z * legacy_patch) :=
  [ (330777465,
     LegacyPatch "fallout4_323025.xdelta" "Next-Gen"
       "a5c13fb8c0e2e9c7c0c8e6f9d4b5a3e2");
    (330553163,
     LegacyPatch "fallout4_322806.xdelta" "Fallout 4 VR"
       "b7d24fa9e1d3c8b6a4f5e7c9d2a1b3c4") ].

(** [os.path.exists] on a disk. *)
Definition path_exists {B} (disk : disk_t B) (path : string) : bool :=
  bool_decide (is_Some (disk !! path)).

Section dependencies.
Context {B : Type} `{!Platform}.

(** The list [missing_files] that [verify_dependencies] builds. *)
Definition missing_files (this : patcher) (disk : disk_t B) : list string :=
  (if path_exists disk (xdelta_path this) then [] else ["xdelta3.exe"])
  ++ flat_map
       (λ item : Z * legacy_patch,
          let patch_info := item.2 in
          let patch_path :=
            os_path_join (assets_dir this) (lp_patch patch_info) in
          if path_exists disk patch_path then [] else [lp_patch patch_info])
       PATCH_MAPPINGS_items.

Definition verify_dependencies (this : patcher) (disk : disk_t B)
  : bool * string :=
  match missing_files this disk with
  | [] => (true, "All dependencies verified")
  | missing =>
      (false, "Missing required files: " +:+ String.concat ", " missing)
  end.

End dependencies.

(** ** Locating the asset in a game folder *)

Section search.
Context {B : Type} `{!Platform}.

(** [os.path.join] with three arguments. *)
Variable os_path_join3 : string → string → string → string.

(** The list [search_locations] of [PatcherGUI.browse_folder] and of
    [main]. *)
Definition search_locations (folder_path : string) : list string :=
  [ os_path_join folder_path "Fallout4.esm";
    os_path_join3 folder_path "Data" "Fallout4.esm";
    os_path_join3 folder_path "data" "Fallout4.esm" ].

(** The loop over [search_locations], left at the first location that
    exists. *)
Fixpoint first_existing (disk : disk_t B) (locations : list string)
  : option string :=
  match locations with
  | [] => None
  | location :: rest =>
      if path_exists disk location then Some location
      else first_existing disk rest
  end.

Definition find_esm (disk : disk_t B) (folder_path : string)
  : option string :=
  first_existing disk (search_locations folder_path).

End search.

(** ** The command line *)

(** [l.index(x)], where it does not raise. *)
Fixpoint list_index (x : string) (l : list string) : option nat :=
  match l with
  | [] => None
  | y :: l' =>
      if String.eqb y x then Some 0%nat
      else option_map S (list_index x l')
  end.

(** How the argument handling at the head of [main] ends: the window is
    started, the usage is printed (exit code 0), an error is printed
    (exit code 1), or the path and the optional target are known. *)
Inductive cli_args :=
| GuiMode
| Help
| InvalidTarget (target_version : string)
| TargetNeedsArgument
| Parsed (input_path : string) (target_version : option string).

Definition parse_args (argv : list string) : cli_args :=
  match argv with
  | _ :: arg1 :: _ =>
      if String.eqb arg1 "--help" || String.eqb arg1 "-h" then Help
      else
        let input_path := arg1 in
        match list_index "--target" argv with
        | Some target_idx =>
            match argv !! (target_idx + 1)%nat with
            | Some target_version =>
                if bool_decide (target_version ∈ ["1.10.163"; "nextgen"])
                then Parsed input_path (Some target_version)
                else InvalidTarget target_version
            | None => TargetNeedsArgument
            end
        | None => Parsed input_path None
        end
  | _ => GuiMode
  end.

(** How [main] ends in command-line mode once [esm_path] is known. *)
Inductive cli_outcome :=
| MissingDependencies (deps_msg : string)
| NothingToPatch (already_patched : bool)
| MultipleTargets (targets : list string)
| CannotPatchTo (target_version : string)
| NoPatchFound (target_version : string)
| Ran (status : exit_status).


Definition get_disk {B} : M B (disk_t B) := λ w, (Ret (disk w), w).

Section cli.
Context {B : Type} `{!FileData B} `{!Platform}.
Variable askyesno : string → string → bool.
Variable subprocess_run : list string → disk_t B → proc_result * disk_t B.

(** The target [main] goes on with: the one given with [--target], or
    the only available one. *)
Definition select_target (target_version : option string)
    (available_targets : list string) : option string :=
  match target_version with
  | Some target => Some target
  | None =>
      match available_targets with
      | [target] => Some target
      | _ => None
      end
  end.

(** [main] in command-line mode, from the dependency check on.  What is
    printed is left out; the outcome tells which branch ended the
    run. *)
Definition main_cli (esm_path : string) (target_version : option string)
  : M B cli_outcome :=
  patcher ← get_self;
  disk ← get_disk;
  let '(deps_ok, deps_msg) := verify_dependencies patcher disk in
  if negb deps_ok then mret (MissingDependencies deps_msg)
  else
    let version_info := detect_esm_version disk esm_path in
    match vi_available_targets version_info with
    | [] =>
        mret (NothingToPatch
                (bool_decide (vi_version version_info = Some "patched")))
    | _ =>
        match select_target target_version
                (vi_available_targets version_info) with
        | None => mret (MultipleTargets (vi_available_targets version_info))
        | Some target_version =>
            if bool_decide
                 (target_version ∈ vi_available_targets version_info)
            then
              match get_patch_for_target disk esm_path target_version with
              | None => mret (NoPatchFound target_version)
              | Some patch_info =>
                  status ← main_patch askyesno subprocess_run esm_path
                             patch_info;
                  mret (Ran status)
              end
            else mret (CannotPatchTo target_version)
        end
    end.

End cli.

(** ** The patch and restore actions of the window *)



Section gui.
Context {B : Type} `{!FileData B} `{!Platform}.
Variable askyesno : string → string → bool.
Variable subprocess_run : list string → disk_t B → proc_result * disk_t B.

(** The truth value of [self.selected_file]: [None] and the empty string
    are false. *)
Definition selected (selected_file : option string) : option string :=
  match selected_file with
  | Some file => if String.eqb file "" then None else Some file
  | None => None
  end.




End gui.

(** ** Analysing a file and choosing a target in the window *)

(** The part of a [PatcherGUI] object that [analyze_file] and
    [on_target_selected] decide: its attributes, the value of
    [target_var], the values of the radio buttons in their order, and
    whether the two action buttons are enabled.  The status text and the
    layout of the widgets are left out. *)
Record gui_state := GuiState {
  selected_file : option string;
  gui_patch_info : option patch_info;
  gui_version_info : option version_info;
  target_var : string;
  target_radio_buttons : list string;
  patch_button : bool;
  restore_button : bool
}.

(** The state that [__init__] and [setup_ui] leave. *)
Definition gui_init : gui_state :=
  GuiState None None None "none" [] false false.

Definition clear_target_options (g : gui_state) : gui_state :=
  GuiState (selected_file g) (gui_patch_info g) (gui_version_info g)
    "none" [] false (restore_button g).

Definition populate_target_options (targets : list string) (g : gui_state)
  : gui_state :=
  GuiState (selected_file g) (gui_patch_info g) (gui_version_info g)
    (target_var g) targets (patch_button g) (restore_button g).

Definition set_patch_button (enabled : bool) (g : gui_state) : gui_state :=
  GuiState (selected_file g) (gui_patch_info g) (gui_version_info g)
    (target_var g) (target_radio_buttons g) enabled (restore_button g).

Definition set_restore_button (enabled : bool) (g : gui_state) : gui_state :=
  GuiState (selected_file g) (gui_patch_info g) (gui_version_info g)
    (target_var g) (target_radio_buttons g) (patch_button g) enabled.

Section gui_analysis.
Context {B : Type} `{!FileData B} `{!Platform}.

Definition analyze_file (disk : disk_t B) (file_path : string)
    (g : gui_state) : gui_state :=
  let g :=
    GuiState (Some file_path) None None (target_var g)
      (target_radio_buttons g) (patch_button g) (restore_button g) in
  let g := clear_target_options g in
  match get_file_info disk file_path with
  | FileMissing => set_patch_button false g
  | FileInfo _ _ _ =>
      let version_info := detect_esm_version disk file_path in
      let g :=
        GuiState (selected_file g) (gui_patch_info g) (Some version_info)
          (target_var g) (target_radio_buttons g) (patch_button g)
          (restore_button g) in
      let g :=
        match vi_available_targets version_info with
        | [] => set_patch_button false g
        | targets => populate_target_options targets g
        end in
      let backup_path := file_path +:+ ".backup" in
      set_restore_button (path_exists disk backup_path) g
  end.

Definition on_target_selected (disk : disk_t B) (g : gui_state)
  : gui_state :=
  let target := target_var g in
  match selected (selected_file g) with
  | Some file =>
      if negb (String.eqb target "") && negb (String.eqb target "none") then
        let patch_info := get_patch_for_target disk file target in
        GuiState (selected_file g) patch_info (gui_version_info g)
          (target_var g) (target_radio_buttons g)
          (match patch_info with Some _ => true | None => false end)
          (restore_button g)
      else g
  | None => g
  end.

(** A click on the radio button with the value [target]: the button
    sets [target_var] and runs its command [on_target_selected]. *)
Definition click_target (disk : disk_t B) (target : string) (g : gui_state)
  : gui_state :=
  on_target_selected disk
    (GuiState (selected_file g) (gui_patch_info g) (gui_version_info g)
       target (target_radio_buttons g) (patch_button g) (restore_button g)).

End gui_analysis.

(** ** A concrete platform and sample disks *)

(** [f"{n/(1024*1024):.2f}"] for [0 ≤ n < 2^53], where the quotient is an
    exact double: hundredths rounded half to even. *)
Definition format_mb_exact (n : Z) : string :=
  let num := n * 100 in
  let den := 1048576 in
  let q := num / den in
  let r := num mod den in
  let h := if (den <? 2 * r) || ((den =? 2 * r) && Z.odd q) then q + 1 else q in
  let frac := h mod 100 in
  pretty (h / 100) +:+ "." +:+
  (if frac <? 10 then "0" +:+ pretty frac else pretty frac).

Definition posix : Platform := {|
  format_mb := format_mb_exact;
  os_path_join a b := a +:+ "/" +:+ b;
  exn_str e :=
    match e with
    | TimeoutExpired => "timed out after 120 seconds"
    | FileNotFoundError p =>
        "[Errno 2] No such file or directory: '" +:+ p +:+ "'"
    | OSError msg => msg
    end
|}.

Definition sample_patcher : patcher := new_patcher (H:=posix) "assets".

Definition file_of_size (n : N) : stat_blob := StatBlob n "".

Definition esm : string := "Fallout4.esm".

Definition sample_patch : patch_info :=
  PatchInfo "fallout4_323025.xdelta" ("Next-Gen" +:+ arrow +:+ "1.10.163")
    (Some "nextgen") "1.10.163".

Definition sample_world : world stat_blob :=
  World sample_patcher {[ esm := file_of_size 330777465 ]}.

Definition write_output (cmd : list string) (b : stat_blob)
    (d : disk_t stat_blob) : disk_t stat_blob :=
  match last cmd with
  | Some out => <[out := b]> d
  | None => d
  end.

(** A run that writes 4096 bytes of output and exits with code 1. *)
Definition tool_exit1 (cmd : list string) (d : disk_t stat_blob)
    : proc_result * disk_t stat_blob :=
  (Completed 1 "", write_output cmd (file_of_size 4096) d).

(** A run that has written 4096 bytes of output when it is timed out. *)
Definition tool_timeout (cmd : list string) (d : disk_t stat_blob)
    : proc_result * disk_t stat_blob :=
  (ProcRaise TimeoutExpired, write_output cmd (file_of_size 4096) d).

(** A run that decodes a 1.10.163 file and exits with code 0. *)
Definition tool_ok (cmd : list string) (d : disk_t stat_blob)
    : proc_result * disk_t stat_blob :=
  (Completed 0 "", write_output cmd (file_of_size 330745373) d).

Definition answer_no (title message : string) : bool := false.

(** A disk with a patched asset and the backup of the original. *)
Definition backed_up_world : world stat_blob :=
  World sample_patcher
    (<[ esm +:+ ".backup" := file_of_size 330777465 ]>
       {[ esm := file_of_size 330745373 ]}).


(** A disk with the asset and a complete assets directory. *)
Definition installed_world : world stat_blob :=
  World sample_patcher
    (<[ esm := file_of_size 330777465 ]>
     (<[ "assets/xdelta3.exe" := file_of_size 250000 ]>
     (<[ "assets/fallout4_323025.xdelta" := file_of_size 90000 ]>
     {[ "assets/fallout4_322806.xdelta" := file_of_size 80000 ]}))).

(** * Properties *)

(** ** Rendering *)

Example format_grouped_samples :
  map format_grouped [330777465; 999; 1000; 0; -1234567]
  = ["330,777,465"; "999"; "1,000"; "0"; "-1,234,567"].
Proof. reflexivity. Qed.

Example format_mb_samples :
  map format_mb_exact [330777465; 61741779; 61598851; 131072]
  = ["315.45"; "58.88"; "58.75"; "0.12"].
Proof. reflexivity. Qed.

(** ** Dictionaries *)

Lemma dict_get_None {V} (d : dict.t V) (k : string) :
  dict.get d k = None ↔ k ∉ dict.keys d.
Proof.
  induction d as [|[k' v] d IH]; simpl.
  - split; [intros _; apply not_elem_of_nil | done].
  - rewrite not_elem_of_cons. destruct (String.eqb_spec k' k) as [->|Hne].
    + split; [discriminate | intros [Hk _]; congruence].
    + rewrite IH. split; [intros Hk; split; congruence | tauto].
Qed.

Lemma dict_get_Some {V} (d : dict.t V) (k : string) :
  is_Some (dict.get d k) ↔ k ∈ dict.keys d.
Proof.
  destruct (dict.get d k) as [v|] eqn:E.
  - split; [intros _ | eauto].
    destruct (decide (k ∈ dict.keys d)) as [|Hn]; [done|].
    apply dict_get_None in Hn. congruence.
  - apply dict_get_None in E. split; [intros [? ?]; discriminate | done].
Qed.

(** ** The static tables, entry by entry *)

Lemma ESM_VERSIONS_lookup (size : Z) :
  ESM_VERSIONS !! size =
    if decide (size = 330777465) then
      Some (VersionEntry "nextgen" "Next-Gen"
              [("1.10.163", "fallout4_323025.xdelta")])
    else if decide (size = 330553163) then
      Some (VersionEntry "vr" "Fallout 4 VR"
              [("1.10.163", "fallout4_322806.xdelta");
               ("nextgen", "fallout4_vr_to_ng.xdelta")])
    else if decide (size = 330745373) then
      Some (VersionEntry "1.10.163" "1.10.163 (Old-Gen)"
              [("nextgen", "fallout4_old_to_ng.xdelta")])
    else None.
Proof.
  unfold ESM_VERSIONS. rewrite !lookup_insert, lookup_empty.
  repeat case_decide; congruence.
Qed.

Lemma PATCH_MAPPINGS_lookup (size : Z) :
  PATCH_MAPPINGS !! size =
    if decide (size = 330777465) then
      Some (LegacyPatch "fallout4_323025.xdelta" "Next-Gen"
              "a5c13fb8c0e2e9c7c0c8e6f9d4b5a3e2")
    else if decide (size = 330553163) then
      Some (LegacyPatch "fallout4_322806.xdelta" "Fallout 4 VR"
              "b7d24fa9e1d3c8b6a4f5e7c9d2a1b3c4")
    else None.
Proof.
  unfold PATCH_MAPPINGS. rewrite !lookup_insert, lookup_empty.
  repeat case_decide; congruence.
Qed.

Lemma dom_ESM_VERSIONS :
  dom ESM_VERSIONS = ({[ 330777465; 330553163; 330745373 ]} : gset Z).
Proof. reflexivity. Qed.

(** ** The version resolver *)

Section resolver_facts.
Context {B : Type} `{!FileData B} `{!Platform}.
Implicit Types (disk : disk_t B) (b : B).

Lemma detect_esm_version_missing disk esm_path :
  disk !! esm_path = None →
  detect_esm_version disk esm_path
  = VersionInfo false None None "File does not exist" [] [].
Proof. intros E. unfold detect_esm_version, get_file_info. by rewrite E. Qed.

(** [detect_esm_version] looks at nothing but the size of the file. *)
Lemma detect_esm_version_present disk esm_path b :
  disk !! esm_path = Some b →
  detect_esm_version disk esm_path =
    match ESM_VERSIONS !! getsize b with
    | Some e =>
        VersionInfo true (Some (getsize b)) (Some (ve_version e))
          (ve_display e) (dict.keys (ve_patches_to e)) (ve_patches_to e)
    | None =>
        match find_patched known_patched_sizes (getsize b) with
        | Some description =>
            VersionInfo true (Some (getsize b)) (Some "patched")
              description [] []
        | None =>
            VersionInfo true (Some (getsize b)) None
              ("Unknown version (" +:+ format_grouped (getsize b) +:+
               " bytes / " +:+ format_mb (getsize b) +:+ " MB)")
              [] []
        end
    end.
Proof. intros E. unfold detect_esm_version, get_file_info. by rewrite E. Qed.

(** C3. For every byte size that is a key of [ESM_VERSIONS], an existing
    file of that size is resolved to exactly the entry's version
    identity and display label, with the entry's transitions as
    patches and their targets, in the entry's order, as available
    targets; the three entries are the ones of the table. *)
Theorem detect_esm_version_registry disk esm_path b e :
  disk !! esm_path = Some b →
  ESM_VERSIONS !! getsize b = Some e →
  detect_esm_version disk esm_path
  = VersionInfo true (Some (getsize b)) (Some (ve_version e))
      (ve_display e) (dict.keys (ve_patches_to e)) (ve_patches_to e)
  ∧ ((getsize b = 330777465 ∧
      e = VersionEntry "nextgen" "Next-Gen"
            [("1.10.163", "fallout4_323025.xdelta")])
     ∨ (getsize b = 330553163 ∧
        e = VersionEntry "vr" "Fallout 4 VR"
              [("1.10.163", "fallout4_322806.xdelta");
               ("nextgen", "fallout4_vr_to_ng.xdelta")])
     ∨ (getsize b = 330745373 ∧
        e = VersionEntry "1.10.163" "1.10.163 (Old-Gen)"
              [("nextgen", "fallout4_old_to_ng.xdelta")])).
Proof.
  intros Hb He. split.
  - rewrite (detect_esm_version_present _ _ _ Hb). by rewrite He.
  - rewrite ESM_VERSIONS_lookup in He.
    repeat case_decide; simplify_eq; auto.
Qed.

Lemma available_targets_keys disk esm_path :
  vi_available_targets (detect_esm_version disk esm_path)
  = dict.keys (vi_patches (detect_esm_version disk esm_path)).
Proof.
  destruct (disk !! esm_path) as [b|] eqn:E.
  - rewrite (detect_esm_version_present _ _ _ E).
    destruct (ESM_VERSIONS !! getsize b) as [e|]; [reflexivity|].
    destruct (find_patched known_patched_sizes (getsize b)); reflexivity.
  - rewrite (detect_esm_version_missing _ _ E). reflexivity.
Qed.

(** C9. In every branch of [detect_esm_version], for an existing or a
    missing file, the list of available targets is the list of keys of
    the patches mapping. *)
Theorem detect_esm_version_targets_are_keys disk esm_path :
  vi_available_targets (detect_esm_version disk esm_path)
  = dict.keys (vi_patches (detect_esm_version disk esm_path)).
Proof.
  unfold detect_esm_version.
  destruct (get_file_info disk esm_path) as [|file_size md5 path];
    [reflexivity|].
  destruct (ESM_VERSIONS !! file_size) as [e|]; [reflexivity|].
  destruct (find_patched known_patched_sizes file_size); reflexivity.
Qed.

(** C4. [get_patch_for_target] returns a patch exactly when the target
    is one of the available targets resolved for the file now at the
    path; the patch it returns is the artifact registered for that
    target, and in every other case the result is [None]: the function
    is total and raises nothing. *)
Theorem get_patch_for_target_iff disk esm_path target :
  (is_Some (get_patch_for_target disk esm_path target)
   ↔ target ∈ vi_available_targets (detect_esm_version disk esm_path))
  ∧ (∀ pinfo,
       get_patch_for_target disk esm_path target = Some pinfo →
       dict.get (vi_patches (detect_esm_version disk esm_path)) target
       = Some (pi_patch pinfo)
       ∧ pi_target_version pinfo = target
       ∧ pi_source_version pinfo
         = vi_version (detect_esm_version disk esm_path))
  ∧ (target ∉ vi_available_targets (detect_esm_version disk esm_path)
     → get_patch_for_target disk esm_path target = None).
Proof.
  rewrite available_targets_keys.
  unfold get_patch_for_target.
  set (vi := detect_esm_version disk esm_path).
  split; [|split].
  - rewrite <- dict_get_Some.
    destruct (dict.get (vi_patches vi) target); split;
      intros [? ?]; by eauto.
  - intros pinfo. destruct (dict.get (vi_patches vi) target);
      intros ?; by simplify_eq.
  - intros Hn. apply dict_get_None in Hn. by rewrite Hn.
Qed.

(** C8. The resolution of a path depends on the file at that path
    alone: two calls between which that file is not modified, whatever
    else changed on the disk, return identical dictionaries. *)
Theorem detect_esm_version_deterministic disk1 disk2 esm_path :
  disk1 !! esm_path = disk2 !! esm_path →
  detect_esm_version disk1 esm_path = detect_esm_version disk2 esm_path.
Proof.
  intros E. unfold detect_esm_version, get_file_info. by rewrite E.
Qed.

Lemma known_sizes_not_registered size ref description :
  (ref, description) ∈ known_patched_sizes →
  Z.abs (size - ref) < 1000 →
  ESM_VERSIONS !! size = None.
Proof.
  unfold known_patched_sizes. rewrite !elem_of_cons, elem_of_nil.
  intros Hin Hd. rewrite ESM_VERSIONS_lookup.
  repeat case_decide; try reflexivity;
    destruct Hin as [?|[?|[]]]; simplify_eq; lia.
Qed.

(** C5, as the code has it. An existing file whose size is less than
    1000 bytes away from one of the reference sizes 61741779 and
    61598851 is not in the registry and is classified with the
    identity ["patched"] and the description of that reference size,
    with no targets. *)
Theorem detect_esm_version_patched disk esm_path b ref description :
  disk !! esm_path = Some b →
  (ref, description) ∈ known_patched_sizes →
  Z.abs (getsize b - ref) < 1000 →
  ESM_VERSIONS !! getsize b = None
  ∧ detect_esm_version disk esm_path
    = VersionInfo true (Some (getsize b)) (Some "patched") description
        [] [].
Proof.
  intros Hb Hin Hd.
  pose proof (known_sizes_not_registered _ _ _ Hin Hd) as Hreg.
  split; [exact Hreg|].
  rewrite (detect_esm_version_present _ _ _ Hb), Hreg.
  revert Hin. unfold known_patched_sizes.
  rewrite !elem_of_cons, elem_of_nil. intros [?|[?|[]]]; simplify_eq; simpl.
  - destruct (Z.ltb_spec (Z.abs (getsize b - 61741779)) 1000); [done|lia].
  - destruct (Z.ltb_spec (Z.abs (getsize b - 61741779)) 1000); [lia|].
    destruct (Z.ltb_spec (Z.abs (getsize b - 61598851)) 1000); [done|lia].
Qed.

(** C10. For an existing file the legacy resolver reports a patch
    (first component [True], third component a patch dictionary)
    exactly for the sizes 330777465 and 330553163.  For the 1.10.163
    size 330745373 it reports none, while [detect_esm_version] offers
    the transition to ["nextgen"]: the two resolvers differ. *)
Theorem identify_esm_version_legacy disk esm_path b :
  disk !! esm_path = Some b →
  ((identify_esm_version disk esm_path).1.1 = true
   ↔ getsize b = 330777465 ∨ getsize b = 330553163)
  ∧ (is_Some (identify_esm_version disk esm_path).2
     ↔ getsize b = 330777465 ∨ getsize b = 330553163)
  ∧ (getsize b = 330745373 →
     identify_esm_version disk esm_path
     = (false, "Unknown ESM version (size: 330,745,373 bytes)", None)
     ∧ vi_available_targets (detect_esm_version disk esm_path)
       = ["nextgen"]
     ∧ get_patch_for_target disk esm_path "nextgen"
       = Some (PatchInfo "fallout4_old_to_ng.xdelta"
                 ("1.10.163 (Old-Gen)" +:+ arrow +:+ "nextgen")
                 (Some "1.10.163") "nextgen")).
Proof.
  intros Hb.
  assert (Hid : identify_esm_version disk esm_path =
    match PATCH_MAPPINGS !! getsize b with
    | Some p =>
        (true, "Next-Gen ESM detected (" +:+ lp_description p +:+ ")", Some p)
    | None =>
        match find_patched known_patched_sizes (getsize b) with
        | Some description =>
            (false, "Already patched: " +:+ description, None)
        | None =>
            (false,
             "Unknown ESM version (size: " +:+ format_grouped (getsize b)
               +:+ " bytes)", None)
        end
    end).
  { unfold identify_esm_version, get_file_info. by rewrite Hb. }
  rewrite Hid, PATCH_MAPPINGS_lookup. clear Hid.
  split; [|split].
  - destruct (find_patched known_patched_sizes (getsize b));
      repeat case_decide; simpl; split;
      first [discriminate | tauto].
  - destruct (find_patched known_patched_sizes (getsize b));
      repeat case_decide; simpl; split; intros Hs;
      first [tauto | by eauto | by destruct Hs].
  - intros Hsz. unfold get_patch_for_target.
    rewrite (detect_esm_version_present _ _ _ Hb), Hsz. done.
Qed.

End resolver_facts.

(** ** Paths *)

Lemma string_length_app (s1 s2 : string) :
  String.length (s1 +:+ s2) = (String.length s1 + String.length s2)%nat.
Proof. induction s1 as [|a s1 IH]; simpl; [done | by rewrite IH]. Qed.

Lemma suffixed_ne (path suffix : string) :
  suffix ≠ "" → path +:+ suffix ≠ path.
Proof.
  intros Hs E. apply (f_equal String.length) in E.
  rewrite string_length_app in E.
  destruct suffix; [done | simpl in E; lia].
Qed.

Lemma patched_ne (esm_path : string) : esm_path +:+ ".patched" ≠ esm_path.
Proof. by apply suffixed_ne. Qed.

Lemma backup_ne (esm_path : string) : esm_path +:+ ".backup" ≠ esm_path.
Proof. by apply suffixed_ne. Qed.

(** ** Running the monad *)

Ltac run_M :=
  unfold mbind, M_bind, mret, M_ret, mthrow, M_throw, try_except,
    get_self, set_backup_created, os_path_exists, os_path_getsize,
    os_remove, os_rename, shutil_copy2; simpl.

Section transaction_facts.
Context {B : Type} `{!FileData B} `{!Platform}.
Variable askyesno : string → string → bool.
Variable subprocess_run : list string → disk_t B → proc_result * disk_t B.
Implicit Types (w : world B) (d : disk_t B).

Lemma discard_run temp_output w :
  discard temp_output w
  = (Ret (), World (self w) (delete temp_output (disk w))).
Proof.
  unfold discard. run_M.
  destruct (disk w !! temp_output) as [t|] eqn:E.
  - rewrite bool_decide_eq_true_2 by eauto. by rewrite E.
  - rewrite bool_decide_eq_false_2 by (intros [? ?]; congruence).
    rewrite delete_id by done. by destruct w.
Qed.

(** [create_backup], run. *)
Lemma create_backup_run esm_path w :
  let backup_path := esm_path +:+ ".backup" in
  create_backup askyesno esm_path w =
    if bool_decide (is_Some (disk w !! backup_path))
       && negb (askyesno "Backup Exists"
            ("A backup already exists at:" +:+ newline +:+ backup_path +:+
             newline +:+ newline +:+ "Overwrite it?"))
    then (Ret (false, "Backup cancelled by user"), w)
    else
      match disk w !! esm_path with
      | Some b =>
          (Ret (true, backup_path),
           World (Patcher (assets_dir (self w)) (xdelta_path (self w))
                    (current_esm_path (self w)) true)
                 (<[backup_path := b]> (disk w)))
      | None => (Ret (false, exn_str (FileNotFoundError esm_path)), w)
      end.
Proof.
  unfold create_backup. run_M.
  destruct (bool_decide _); simpl.
  - destruct (askyesno _ _); simpl; [|done].
    by destruct (disk w !! esm_path).
  - by destruct (disk w !! esm_path).
Qed.

(** [restore_backup], run. *)
Lemma restore_backup_run esm_path w :
  restore_backup esm_path w =
    match disk w !! (esm_path +:+ ".backup") with
    | None => (Ret (false, "No backup file found"), w)
    | Some b =>
        (Ret (true, "Successfully restored from backup"),
         World (self w) (<[esm_path := b]> (disk w)))
    end.
Proof.
  unfold restore_backup. run_M.
  destruct (disk w !! (esm_path +:+ ".backup")) as [b|] eqn:Eb.
  - rewrite bool_decide_eq_true_2 by eauto. simpl.
    destruct (disk w !! esm_path) as [a|] eqn:Ea.
    + rewrite bool_decide_eq_true_2 by eauto. rewrite Ea. simpl.
      rewrite lookup_delete_ne by (symmetry; apply backup_ne).
      rewrite Eb. by rewrite insert_delete_eq.
    + rewrite bool_decide_eq_false_2 by (intros [? ?]; congruence).
      simpl. by rewrite Eb.
  - by rewrite bool_decide_eq_false_2 by (intros [? ?]; congruence).
Qed.

(** [apply_patch], run: the result and the disk in terms of how the
    process ended and the disk [d] it left. *)
Lemma apply_patch_run esm_path pinfo w :
  let temp_output := esm_path +:+ ".patched" in
  let cmd :=
    xdelta_cmd (xdelta_path (self w)) esm_path
      (os_path_join (assets_dir (self w)) (pi_patch pinfo)) temp_output in
  apply_patch subprocess_run esm_path pinfo w =
    match subprocess_run cmd (disk w) with
    | (Completed returncode stderr, d) =>
        if returncode =? 0 then
          match d !! temp_output with
          | None =>
              (Ret (false, "Patched file was not created"),
               World (self w) d)
          | Some t =>
              if getsize t <? 50000000 then
                (Ret (false,
                      "Patched file is too small (" +:+ pretty (getsize t)
                        +:+ " bytes)"),
                 World (self w) (delete temp_output d))
              else
                match d !! esm_path with
                | Some _ =>
                    (Ret (true,
                          "Patch applied successfully!" +:+ newline +:+
                          "New file size: " +:+ format_grouped (getsize t)
                            +:+ " bytes (" +:+ format_mb (getsize t) +:+
                            " MB)"),
                     World (self w)
                       (<[esm_path := t]> (delete temp_output d)))
                | None =>
                    (Ret (false, exn_str (FileNotFoundError esm_path)),
                     World (self w) (delete temp_output d))
                end
          end
        else
          (Ret (false, failure_message returncode stderr),
           World (self w) d)
    | (ProcRaise TimeoutExpired, d) =>
        (Ret (false, "Patching process timed out"),
         World (self w) (delete temp_output d))
    | (ProcRaise e, d) =>
        (Ret (false, exn_str e), World (self w) (delete temp_output d))
    end.
Proof.
  intros temp_output cmd. unfold apply_patch, run_process.
  unfold mbind, M_bind, try_except, get_self. simpl. fold temp_output cmd.
  destruct (subprocess_run cmd (disk w)) as [[returncode stderr|e] d].
  - destruct (returncode =? 0); simpl.
    + destruct (d !! temp_output) as [t|] eqn:Et.
      * rewrite bool_decide_eq_true_2 by eauto. simpl.
        unfold os_path_getsize. simpl. rewrite Et.
        destruct (getsize t <? 50000000).
        -- unfold os_remove. simpl. by rewrite Et.
        -- unfold os_remove at 1. simpl.
           destruct (d !! esm_path) as [a|] eqn:Ea.
           ++ unfold os_rename, mret, M_ret. simpl.
              rewrite lookup_delete_ne by (symmetry; apply patched_ne).
              rewrite Et. do 2 f_equal.
              rewrite delete_delete.
              by rewrite insert_delete_eq.
           ++ rewrite discard_run. simpl. done.
      * by rewrite bool_decide_eq_false_2 by (intros [? ?]; congruence).
    + unfold failure_message, mret, M_ret.
      by destruct (String.eqb stderr "").
  - destruct e; rewrite discard_run; done.
Qed.

Lemma apply_patch_failure_frame esm_path pinfo w msg w' :
  writes_only_output subprocess_run →
  apply_patch subprocess_run esm_path pinfo w = (Ret (false, msg), w') →
  disk w' !! esm_path = disk w !! esm_path.
Proof.
  intros Htool. rewrite apply_patch_run.
  pose proof (Htool (xdelta_path (self w)) esm_path
    (os_path_join (assets_dir (self w)) (pi_patch pinfo))
    (esm_path +:+ ".patched") (disk w) esm_path) as Hframe.
  destruct (subprocess_run _ (disk w)) as [r d]. simpl in Hframe.
  specialize (Hframe (not_eq_sym (patched_ne esm_path))).
  assert (Hdel : delete (esm_path +:+ ".patched") d !! esm_path
                 = disk w !! esm_path).
  { by rewrite lookup_delete_ne by apply patched_ne. }
  destruct r as [returncode stderr|e].
  - destruct (returncode =? 0).
    + destruct (d !! (esm_path +:+ ".patched")) as [t|].
      * destruct (getsize t <? 50000000); [intros; by simplify_eq|].
        destruct (d !! esm_path); intros; by simplify_eq.
      * intros; by simplify_eq.
    + intros; by simplify_eq.
  - destruct e; intros; by simplify_eq.
Qed.

Lemma apply_patch_returns esm_path pinfo w :
  ∃ ok msg w',
    apply_patch subprocess_run esm_path pinfo w = (Ret (ok, msg), w').
Proof.
  rewrite apply_patch_run.
  destruct (subprocess_run _ (disk w)) as [[returncode stderr|e] d].
  - destruct (returncode =? 0); [|by eauto].
    destruct (d !! (esm_path +:+ ".patched")) as [t|]; [|by eauto].
    destruct (getsize t <? 50000000); [by eauto|].
    destruct (d !! esm_path); by eauto.
  - destruct e; by eauto.
Qed.

Lemma create_backup_failure esm_path w msg w' :
  create_backup askyesno esm_path w = (Ret (false, msg), w') → w' = w.
Proof.
  rewrite create_backup_run. simpl.
  destruct (_ && _); [intros; by simplify_eq|].
  destruct (disk w !! esm_path); intros; by simplify_eq.
Qed.

Lemma create_backup_frame esm_path w ok msg w' :
  create_backup askyesno esm_path w = (Ret (ok, msg), w') →
  disk w' !! esm_path = disk w !! esm_path.
Proof.
  rewrite create_backup_run. simpl.
  destruct (_ && _); [intros; by simplify_eq|].
  destruct (disk w !! esm_path) eqn:E; intros; simplify_eq; [|done].
  simpl. by rewrite lookup_insert_ne by apply backup_ne.
Qed.

Lemma create_backup_returns esm_path w :
  ∃ ok msg w', create_backup askyesno esm_path w = (Ret (ok, msg), w').
Proof.
  rewrite create_backup_run. simpl.
  destruct (_ && _); [by eauto|].
  destruct (disk w !! esm_path); by eauto.
Qed.

(** C1. A transaction that fails leaves the asset as it was.  Under
    the tool contract: a failed [create_backup] changes nothing at all;
    a failed [apply_patch] (non-zero exit, missing or too small output,
    timeout, any caught exception) leaves the file at [esm_path]
    unchanged; so does the backup-then-patch sequence whenever it does
    not end in success, and it never raises.  The named cases are
    failures: a non-zero return code, and a missing output or one below
    50000000 bytes after a zero return code, make [apply_patch] return
    [False].  When the process times out, [apply_patch] reports the
    timeout and the temporary output file is gone afterwards. *)
Theorem failed_transaction_keeps_asset esm_path pinfo w :
  writes_only_output subprocess_run →
  let temp_output := esm_path +:+ ".patched" in
  let cmd :=
    xdelta_cmd (xdelta_path (self w)) esm_path
      (os_path_join (assets_dir (self w)) (pi_patch pinfo)) temp_output in
  (∀ msg w', create_backup askyesno esm_path w = (Ret (false, msg), w') →
             w' = w)
  ∧ (∀ msg w',
       apply_patch subprocess_run esm_path pinfo w = (Ret (false, msg), w') →
       disk w' !! esm_path = disk w !! esm_path)
  ∧ (∃ st w',
       main_patch askyesno subprocess_run esm_path pinfo w = (Ret st, w')
       ∧ ((∀ msg, st ≠ PatchSucceeded msg) →
          disk w' !! esm_path = disk w !! esm_path))
  ∧ (∀ returncode stderr d,
       subprocess_run cmd (disk w) = (Completed returncode stderr, d) →
       returncode ≠ 0 ∨ d !! temp_output = None
       ∨ (∃ t, d !! temp_output = Some t ∧ getsize t < 50000000) →
       ∃ msg w',
         apply_patch subprocess_run esm_path pinfo w
         = (Ret (false, msg), w'))
  ∧ (∀ d,
       subprocess_run cmd (disk w) = (ProcRaise TimeoutExpired, d) →
       ∃ w',
         apply_patch subprocess_run esm_path pinfo w
         = (Ret (false, "Patching process timed out"), w')
         ∧ disk w' !! temp_output = None
         ∧ disk w' !! esm_path = disk w !! esm_path).
Proof.
  intros Htool temp_output cmd. repeat split.
  - intros msg w'. apply create_backup_failure.
  - intros msg w' Hrun. by eapply apply_patch_failure_frame.
  - unfold main_patch, mbind, M_bind.
    destruct (create_backup_returns esm_path w) as (ok & bmsg & w1 & Hb).
    rewrite Hb. pose proof (create_backup_frame _ _ _ _ _ Hb) as Hb1.
    destruct ok; simpl; [|by eauto].
    destruct (apply_patch_returns esm_path pinfo w1) as (ok & pmsg & w2 & Hp).
    rewrite Hp. destruct ok; simpl.
    + eexists _, _. split; [done|]. intros Hn. by destruct (Hn pmsg).
    + eexists _, _. split; [done|]. intros _. rewrite <- Hb1.
      by eapply apply_patch_failure_frame.
  - intros returncode stderr d Hrun Hcase.
    rewrite apply_patch_run. fold temp_output cmd. rewrite Hrun.
    destruct (Z.eqb_spec returncode 0) as [->|Hrc]; [|by eauto].
    destruct Hcase as [?|[Hnone|(t & Ht & Hsmall)]]; [done| |].
    + rewrite Hnone. by eauto.
    + rewrite Ht. destruct (Z.ltb_spec (getsize t) 50000000); [|lia].
      by eauto.
  - intros d Hrun. rewrite apply_patch_run. fold temp_output cmd.
    rewrite Hrun. eexists. split; [done|]. simpl. split.
    + apply lookup_delete_eq.
    + rewrite lookup_delete_ne by apply patched_ne.
      pose proof (Htool (xdelta_path (self w)) esm_path
        (os_path_join (assets_dir (self w)) (pi_patch pinfo))
        temp_output (disk w) esm_path
        (not_eq_sym (patched_ne esm_path))) as Hframe.
      fold cmd in Hframe. by rewrite Hrun in Hframe.
Qed.

(** What [apply_patch] does on a non-zero return code: it reports the
    failure and leaves the disk exactly as the process left it, the
    temporary output file included. *)
Lemma apply_patch_nonzero_exit esm_path pinfo w returncode stderr d :
  subprocess_run
    (xdelta_cmd (xdelta_path (self w)) esm_path
       (os_path_join (assets_dir (self w)) (pi_patch pinfo))
       (esm_path +:+ ".patched")) (disk w)
  = (Completed returncode stderr, d) →
  returncode ≠ 0 →
  apply_patch subprocess_run esm_path pinfo w
  = (Ret (false, failure_message returncode stderr), World (self w) d).
Proof.
  intros Hrun Hrc. rewrite apply_patch_run, Hrun.
  by destruct (Z.eqb_spec returncode 0).
Qed.

(** C6. When a backup file exists and the user does not authorize
    overwriting it, [create_backup] returns [False] with the message
    "Backup cancelled by user", and the patcher and the whole disk, the
    asset and the existing backup included, are as before. *)
Theorem create_backup_declined esm_path w old :
  let backup_path := esm_path +:+ ".backup" in
  disk w !! backup_path = Some old →
  askyesno "Backup Exists"
    ("A backup already exists at:" +:+ newline +:+ backup_path +:+
     newline +:+ newline +:+ "Overwrite it?") = false →
  create_backup askyesno esm_path w
  = (Ret (false, "Backup cancelled by user"), w).
Proof.
  intros backup_path Hold Hno. rewrite create_backup_run.
  fold backup_path. rewrite Hno.
  by rewrite bool_decide_eq_true_2 by eauto.
Qed.

(** C7. Without a backup file [restore_backup] returns [False] with
    "No backup file found" and changes nothing.  With a backup file it
    succeeds, the asset then has the content of the backup, and the
    backup file is still there with its content; no other file
    changes. *)
Theorem restore_backup_correct esm_path w :
  let backup_path := esm_path +:+ ".backup" in
  (disk w !! backup_path = None →
   restore_backup esm_path w = (Ret (false, "No backup file found"), w))
  ∧ (∀ b, disk w !! backup_path = Some b →
       ∃ w',
         restore_backup esm_path w
         = (Ret (true, "Successfully restored from backup"), w')
         ∧ disk w' !! esm_path = Some b
         ∧ disk w' !! backup_path = Some b
         ∧ (∀ p, p ≠ esm_path → disk w' !! p = disk w !! p)).
Proof.
  intros backup_path. rewrite restore_backup_run. fold backup_path. split.
  - by intros ->.
  - intros b Hb. rewrite Hb. eexists. split; [done|]. simpl. repeat split.
    + apply lookup_insert_eq.
    + by rewrite lookup_insert_ne by (apply not_eq_sym, backup_ne).
    + intros p Hp. by rewrite lookup_insert_ne.
Qed.

End transaction_facts.

(** ** The model on concrete disks *)

Lemma write_output_contract (r : proc_result) (b : stat_blob) :
  writes_only_output (λ cmd d, (r, write_output cmd b d)).
Proof.
  intros xdelta src patch out d p Hp. unfold write_output. simpl.
  by rewrite lookup_insert_ne.
Qed.

Lemma tool_exit1_contract : writes_only_output tool_exit1.
Proof. apply write_output_contract. Qed.

Lemma tool_timeout_contract : writes_only_output tool_timeout.
Proof. apply write_output_contract. Qed.

Example apply_patch_success :
  ∃ w',
    apply_patch (H:=posix) tool_ok esm sample_patch sample_world
    = (Ret (true,
            "Patch applied successfully!" +:+ newline +:+
            "New file size: 330,745,373 bytes (315.42 MB)"), w')
    ∧ disk w' !! esm = Some (file_of_size 330745373)
    ∧ disk w' !! (esm +:+ ".patched") = None.
Proof.
  rewrite apply_patch_run. eexists. split; [reflexivity|].
  split; reflexivity.
Qed.

Example detect_each_entry :
  map (λ n, detect_esm_version (H:=posix) {[ esm := file_of_size n ]} esm)
      [330777465; 330553163; 330745373]%N
  = [ VersionInfo true (Some 330777465) (Some "nextgen") "Next-Gen"
        ["1.10.163"] [("1.10.163", "fallout4_323025.xdelta")];
      VersionInfo true (Some 330553163) (Some "vr") "Fallout 4 VR"
        ["1.10.163"; "nextgen"]
        [("1.10.163", "fallout4_322806.xdelta");
         ("nextgen", "fallout4_vr_to_ng.xdelta")];
      VersionInfo true (Some 330745373) (Some "1.10.163")
        "1.10.163 (Old-Gen)" ["nextgen"]
        [("nextgen", "fallout4_old_to_ng.xdelta")] ].
Proof. reflexivity. Qed.

Example detect_unknown :
  detect_esm_version (H:=posix) {[ esm := file_of_size 12345678 ]} esm
  = VersionInfo true (Some 12345678) None
      "Unknown version (12,345,678 bytes / 11.77 MB)" [] [].
Proof. reflexivity. Qed.

(** C2. A run of [apply_patch] in which [xdelta3] writes some output and
    exits with return code 1: the method returns [False] with the
    message "xdelta3 failed with return code 1" and the asset is as
    before, but the temporary output file is still on the disk. *)
Theorem apply_patch_nonzero_exit_leaves_temp :
  writes_only_output tool_exit1
  ∧ ∃ w',
      apply_patch (H:=posix) tool_exit1 esm sample_patch sample_world
      = (Ret (false, "xdelta3 failed with return code 1"), w')
      ∧ disk w' !! esm = disk sample_world !! esm
      ∧ disk sample_world !! (esm +:+ ".patched") = None
      ∧ disk w' !! (esm +:+ ".patched") = Some (file_of_size 4096).
Proof.
  split; [apply tool_exit1_contract|].
  eexists. split.
  - by apply (apply_patch_nonzero_exit (H:=posix) tool_exit1 esm sample_patch
                sample_world 1 "" _ eq_refl).
  - repeat split; reflexivity.
Qed.

(** C5, counterexample. A file of 61742779 bytes, exactly 1000 bytes
    above the reference size 61741779, is not in the registry and lies
    in the window of plus or minus 1000 bytes, yet it is classified as
    unknown. *)
Lemma detect_esm_version_window_counterexample :
  ¬ (∀ (B : Type) (F : FileData B) (P : Platform) (disk : disk_t B)
       (esm_path : string) (b : B) (ref : Z) (description : string),
       disk !! esm_path = Some b →
       ESM_VERSIONS !! getsize b = None →
       (ref, description) ∈ known_patched_sizes →
       Z.abs (getsize b - ref) ≤ 1000 →
       vi_version (detect_esm_version disk esm_path) = Some "patched"
       ∧ vi_display (detect_esm_version disk esm_path) = description).
Proof.
  intros Hclaim.
  destruct (Hclaim stat_blob _ posix {[ esm := file_of_size 61742779 ]} esm
              (file_of_size 61742779) 61741779
              "VR-compatible version (58.9 MB)") as [Hv _].
  - reflexivity.
  - reflexivity.
  - apply list_elem_of_here.
  - simpl. lia.
  - discriminate Hv.
Qed.

(** ** The theorems at concrete inputs *)

Lemma failed_transaction_keeps_asset_witness :
  writes_only_output tool_timeout
  ∧ ∃ w',
      apply_patch (H:=posix) tool_timeout esm sample_patch sample_world
      = (Ret (false, "Patching process timed out"), w')
      ∧ disk w' !! (esm +:+ ".patched") = None
      ∧ disk w' !! esm = Some (file_of_size 330777465).
Proof.
  split; [apply tool_timeout_contract|].
  destruct (failed_transaction_keeps_asset (H:=posix) answer_no tool_timeout
              esm sample_patch sample_world tool_timeout_contract)
    as (_ & _ & _ & _ & Htimeout).
  exact (Htimeout _ eq_refl).
Defined.

Lemma detect_esm_version_registry_witness :
  let disk : disk_t stat_blob := {[ esm := file_of_size 330553163 ]} in
  let e := VersionEntry "vr" "Fallout 4 VR"
             [("1.10.163", "fallout4_322806.xdelta");
              ("nextgen", "fallout4_vr_to_ng.xdelta")] in
  disk !! esm = Some (file_of_size 330553163)
  ∧ ESM_VERSIONS !! getsize (file_of_size 330553163) = Some e
  ∧ detect_esm_version (H:=posix) disk esm
    = VersionInfo true (Some 330553163) (Some "vr") "Fallout 4 VR"
        ["1.10.163"; "nextgen"] (ve_patches_to e).
Proof.
  intros disk e. split; [reflexivity|]. split; [reflexivity|].
  exact (proj1 (detect_esm_version_registry (H:=posix) disk esm
                  (file_of_size 330553163) e eq_refl eq_refl)).
Defined.

Lemma detect_esm_version_patched_witness :
  let disk : disk_t stat_blob := {[ esm := file_of_size 61742778 ]} in
  Z.abs (61742778 - 61741779) < 1000
  ∧ detect_esm_version (H:=posix) disk esm
    = VersionInfo true (Some 61742778) (Some "patched")
        "VR-compatible version (58.9 MB)" [] [].
Proof.
  intros disk. split; [simpl; lia|].
  refine (proj2 (detect_esm_version_patched (H:=posix) disk esm
                   (file_of_size 61742778) 61741779
                   "VR-compatible version (58.9 MB)" eq_refl _ _)).
  - apply list_elem_of_here.
  - simpl. lia.
Defined.

Lemma detect_esm_version_deterministic_witness :
  let disk1 : disk_t stat_blob := {[ esm := file_of_size 330777465 ]} in
  let disk2 : disk_t stat_blob :=
    <[ "notes.txt" := file_of_size 12 ]> disk1 in
  disk1 !! esm = disk2 !! esm
  ∧ detect_esm_version (H:=posix) disk1 esm
    = detect_esm_version (H:=posix) disk2 esm.
Proof.
  intros disk1 disk2. split; [reflexivity|].
  apply (detect_esm_version_deterministic (H:=posix) disk1 disk2 esm).
  reflexivity.
Defined.

Lemma identify_esm_version_legacy_witness :
  let disk : disk_t stat_blob := {[ esm := file_of_size 330745373 ]} in
  identify_esm_version disk esm
  = (false, "Unknown ESM version (size: 330,745,373 bytes)", None)
  ∧ vi_available_targets (detect_esm_version (H:=posix) disk esm)
    = ["nextgen"].
Proof.
  intros disk.
  destruct (identify_esm_version_legacy (H:=posix) disk esm
              (file_of_size 330745373) eq_refl)
    as (_ & _ & Hold).
  destruct (Hold eq_refl) as (Hid & Htargets & _).
  split; [exact Hid | exact Htargets].
Defined.

Lemma create_backup_declined_witness :
  disk backed_up_world !! (esm +:+ ".backup")
  = Some (file_of_size 330777465)
  ∧ create_backup (H:=posix) answer_no esm backed_up_world
    = (Ret (false, "Backup cancelled by user"), backed_up_world).
Proof.
  split; [reflexivity|].
  exact (create_backup_declined (H:=posix) answer_no esm backed_up_world
           (file_of_size 330777465) eq_refl eq_refl).
Defined.

Lemma restore_backup_correct_witness :
  ∃ w',
    restore_backup (H:=posix) esm backed_up_world
    = (Ret (true, "Successfully restored from backup"), w')
    ∧ disk w' !! esm = Some (file_of_size 330777465)
    ∧ disk w' !! (esm +:+ ".backup") = Some (file_of_size 330777465).
Proof.
  destruct (proj2 (restore_backup_correct (H:=posix) esm backed_up_world)
              (file_of_size 330777465) eq_refl)
    as (w' & Hrun & Hasset & Hbackup & _).
  exists w'. split; [exact Hrun|]. split; [exact Hasset | exact Hbackup].
Defined.

(** * Further properties of the resolver *)

Section resolver_more.
Context {B : Type} `{!FileData B} `{!Platform}.
Implicit Types (disk : disk_t B) (b : B).

Lemma identify_esm_version_present disk esm_path b :
  disk !! esm_path = Some b →
  identify_esm_version disk esm_path =
    match PATCH_MAPPINGS !! getsize b with
    | Some p =>
        (true, "Next-Gen ESM detected (" +:+ lp_description p +:+ ")", Some p)
    | None =>
        match find_patched known_patched_sizes (getsize b) with
        | Some description =>
            (false, "Already patched: " +:+ description, None)
        | None =>
            (false,
             "Unknown ESM version (size: " +:+ format_grouped (getsize b)
               +:+ " bytes)", None)
        end
    end.
Proof. intros E. unfold identify_esm_version, get_file_info. by rewrite E. Qed.

Lemma find_patched_known (size : Z) :
  find_patched known_patched_sizes size =
    if decide (Z.abs (size - 61741779) < 1000) then
      Some "VR-compatible version (58.9 MB)"
    else if decide (Z.abs (size - 61598851) < 1000) then
      Some "VR-compatible version (58.7 MB)"
    else None.
Proof.
  simpl.
  destruct (Z.ltb_spec (Z.abs (size - 61741779)) 1000);
    destruct (Z.ltb_spec (Z.abs (size - 61598851)) 1000);
    repeat case_decide; first [reflexivity | lia].
Qed.

(** X1. An existing file is classified as unknown (version [None])
    exactly when its size is none of the three registered sizes and is at
    least 1000 bytes away from both reference sizes; an unknown file has
    no targets and no patches, and its size is reported. *)
Theorem detect_esm_version_unknown_iff disk esm_path b :
  disk !! esm_path = Some b →
  (vi_version (detect_esm_version disk esm_path) = None
   ↔ getsize b ≠ 330777465 ∧ getsize b ≠ 330553163
     ∧ getsize b ≠ 330745373
     ∧ 1000 ≤ Z.abs (getsize b - 61741779)
     ∧ 1000 ≤ Z.abs (getsize b - 61598851))
  ∧ (vi_version (detect_esm_version disk esm_path) = None →
     vi_exists (detect_esm_version disk esm_path) = true
     ∧ vi_size (detect_esm_version disk esm_path) = Some (getsize b)
     ∧ vi_available_targets (detect_esm_version disk esm_path) = []
     ∧ vi_patches (detect_esm_version disk esm_path) = []).
Proof.
  intros Hb. rewrite (detect_esm_version_present _ _ _ Hb).
  rewrite ESM_VERSIONS_lookup, find_patched_known.
  split.
  - repeat case_decide; simpl; split; intros Hv;
      first [discriminate | lia | done | intuition lia].
  - repeat case_decide; simpl; intros Hv; first [discriminate | done].
Qed.

(** X2. Whatever the file, every target that [detect_esm_version]
    offers is one of the two version names that the [--target] option of
    the command line accepts, differs from the detected version of the
    file, and is only offered for a file of a registered size. *)
Theorem available_targets_valid disk esm_path target :
  target ∈ vi_available_targets (detect_esm_version disk esm_path) →
  target ∈ ["1.10.163"; "nextgen"]
  ∧ vi_version (detect_esm_version disk esm_path) ≠ Some target
  ∧ ∃ b, disk !! esm_path = Some b
         ∧ getsize b ∈ [330777465; 330553163; 330745373].
Proof.
  destruct (disk !! esm_path) as [b|] eqn:Hb.
  - rewrite (detect_esm_version_present _ _ _ Hb).
    rewrite ESM_VERSIONS_lookup, find_patched_known.
    repeat case_decide; simpl; rewrite ?elem_of_cons, ?elem_of_nil;
      intros Ht; (split; [|split]);
      first [ by exists b; split; [done|]; rewrite !elem_of_cons; auto
            | intuition congruence
            | tauto ].
  - rewrite (detect_esm_version_missing _ _ Hb). simpl.
    by intros ?%elem_of_nil.
Qed.

(** X3. The legacy resolver and the new one agree on the transition to
    1.10.163: [identify_esm_version] reports a patch exactly when
    [detect_esm_version] offers the target ["1.10.163"], and then
    [get_patch_for_target] returns the same patch file for that target
    and the display label is the legacy description. *)
Theorem identify_agrees_on_old_gen disk esm_path :
  ((identify_esm_version disk esm_path).1.1 = true
   ↔ "1.10.163" ∈ vi_available_targets (detect_esm_version disk esm_path))
  ∧ (∀ legacy,
       (identify_esm_version disk esm_path).2 = Some legacy →
       ∃ pinfo,
         get_patch_for_target disk esm_path "1.10.163" = Some pinfo
         ∧ pi_patch pinfo = lp_patch legacy
         ∧ vi_display (detect_esm_version disk esm_path)
           = lp_description legacy).
Proof.
  unfold get_patch_for_target.
  destruct (disk !! esm_path) as [b|] eqn:Hb.
  - rewrite (identify_esm_version_present _ _ _ Hb).
    rewrite (detect_esm_version_present _ _ _ Hb).
    rewrite PATCH_MAPPINGS_lookup, ESM_VERSIONS_lookup, find_patched_known.
    split.
    + repeat case_decide; simpl; rewrite ?elem_of_cons, ?elem_of_nil;
        split; intros Hx; first [done | by auto | lia | intuition congruence].
    + intros legacy.
      repeat case_decide; simpl; intros Hl; simplify_eq; simpl;
        first [lia | by eexists].
  - unfold identify_esm_version, get_file_info. rewrite Hb.
    rewrite (detect_esm_version_missing _ _ Hb). simpl.
    split; [|done]. split; [done|]. by intros ?%elem_of_nil.
Qed.

(** X4. The size is the only key: two existing files of the same size,
    on any disks and at any paths, whatever their contents and digests,
    are resolved to the same dictionary. *)
Theorem detect_esm_version_by_size disk1 disk2 path1 path2 b1 b2 :
  disk1 !! path1 = Some b1 →
  disk2 !! path2 = Some b2 →
  getsize b1 = getsize b2 →
  detect_esm_version disk1 path1 = detect_esm_version disk2 path2.
Proof.
  intros H1 H2 Hsize.
  rewrite (detect_esm_version_present _ _ _ H1).
  rewrite (detect_esm_version_present _ _ _ H2).
  by rewrite Hsize.
Qed.

End resolver_more.

(** * Further properties of backup, patch and restore *)

Lemma backup_ne_patched (esm_path : string) :
  esm_path +:+ ".backup" ≠ esm_path +:+ ".patched".
Proof. intros E. by apply String.app_inj in E. Qed.

Section transaction_more.
Context {B : Type} `{!FileData B} `{!Platform}.
Variable askyesno : string → string → bool.
Variable subprocess_run : list string → disk_t B → proc_result * disk_t B.
Implicit Types (w : world B) (d : disk_t B).

Lemma apply_patch_frame esm_path pinfo w ok msg w' p :
  writes_only_output subprocess_run →
  apply_patch subprocess_run esm_path pinfo w = (Ret (ok, msg), w') →
  p ≠ esm_path → p ≠ esm_path +:+ ".patched" →
  disk w' !! p = disk w !! p.
Proof.
  intros Htool Hrun Hp1 Hp2.
  pose proof (Htool (xdelta_path (self w)) esm_path
    (os_path_join (assets_dir (self w)) (pi_patch pinfo))
    (esm_path +:+ ".patched") (disk w) p Hp2) as Hd.
  rewrite apply_patch_run in Hrun.
  destruct (subprocess_run _ (disk w)) as [r d]. simpl in Hd.
  rewrite <- Hd.
  repeat case_match; simplify_eq/=;
    rewrite ?lookup_insert_ne, ?lookup_delete_ne by done; done.
Qed.


(** X5. [create_backup] always returns; it returns [True] exactly when
    the asset exists and either no backup exists yet or the user
    authorizes the overwrite.  On success the backup has the content of
    the asset, the returned text is the backup path, the flag
    [backup_created] is set and no other file changes; on failure
    nothing changes. *)
Theorem create_backup_succeeds_iff esm_path w :
  let backup_path := esm_path +:+ ".backup" in
  let authorized :=
    askyesno "Backup Exists"
      ("A backup already exists at:" +:+ newline +:+ backup_path +:+
       newline +:+ newline +:+ "Overwrite it?") in
  ∃ ok msg w',
    create_backup askyesno esm_path w = (Ret (ok, msg), w')
    ∧ (ok = true
       ↔ is_Some (disk w !! esm_path)
         ∧ (disk w !! backup_path = None ∨ authorized = true))
    ∧ (ok = true →
       msg = backup_path
       ∧ disk w' !! backup_path = disk w !! esm_path
       ∧ backup_created (self w') = true
       ∧ ∀ p, p ≠ backup_path → disk w' !! p = disk w !! p)
    ∧ (ok = false → w' = w).
Proof.
  intros backup_path authorized. rewrite create_backup_run.
  fold backup_path authorized.
  destruct (disk w !! backup_path) as [old|] eqn:Hold.
  - rewrite bool_decide_eq_true_2 by eauto.
    destruct authorized eqn:Hauth; simpl.
    + destruct (disk w !! esm_path) as [c|] eqn:Hc.
      * eexists _, _, _. split; [done|]. repeat split; eauto.
        -- simpl. apply lookup_insert_eq.
        -- intros p Hp. simpl. by rewrite lookup_insert_ne.
        -- done.
      * eexists _, _, _. split; [done|].
        repeat split; try done; by intros [[? ?] _].
    + eexists _, _, _. split; [done|].
      repeat split; try done. intros [_ [?|?]]; done.
  - rewrite bool_decide_eq_false_2 by (intros [? ?]; congruence). simpl.
    destruct (disk w !! esm_path) as [c|] eqn:Hc.
    + eexists _, _, _. split; [done|]. repeat split; eauto.
      * simpl. apply lookup_insert_eq.
      * intros p Hp. simpl. by rewrite lookup_insert_ne.
      * done.
    + eexists _, _, _. split; [done|].
      repeat split; try done; by intros [[? ?] _].
Qed.

(** X6. No exception escapes: in every world and for every behaviour of
    the user and of the external process, [create_backup], [apply_patch]
    and [restore_backup] return a pair of a flag and a message, and the
    backup-then-patch sequence returns a status. *)
Theorem methods_never_raise esm_path pinfo w :
  (∃ ok msg w', create_backup askyesno esm_path w = (Ret (ok, msg), w'))
  ∧ (∃ ok msg w',
       apply_patch subprocess_run esm_path pinfo w = (Ret (ok, msg), w'))
  ∧ (∃ ok msg w', restore_backup esm_path w = (Ret (ok, msg), w'))
  ∧ (∃ status w',
       main_patch askyesno subprocess_run esm_path pinfo w
       = (Ret status, w')).
Proof.
  split; [apply create_backup_returns|].
  split; [apply apply_patch_returns|].
  split.
  - rewrite restore_backup_run.
    destruct (disk w !! (esm_path +:+ ".backup")); by eauto.
  - unfold main_patch, mbind, M_bind.
    destruct (create_backup_returns askyesno esm_path w)
      as (ok & bmsg & w1 & ->).
    destruct ok; simpl; [|by eauto].
    destruct (apply_patch_returns subprocess_run esm_path pinfo w1)
      as (ok & pmsg & w2 & ->).
    destruct ok; simpl; by eauto.
Qed.

Lemma apply_patch_run_cmd esm_path pinfo w r d :
  subprocess_run (apply_patch_cmd (self w) esm_path pinfo) (disk w) = (r, d) →
  apply_patch subprocess_run esm_path pinfo w =
    match r with
    | Completed returncode stderr =>
        if returncode =? 0 then
          match d !! (esm_path +:+ ".patched") with
          | None =>
              (Ret (false, "Patched file was not created"), World (self w) d)
          | Some t =>
              if getsize t <? 50000000 then
                (Ret (false,
                      "Patched file is too small (" +:+ pretty (getsize t)
                        +:+ " bytes)"),
                 World (self w) (delete (esm_path +:+ ".patched") d))
              else
                match d !! esm_path with
                | Some _ =>
                    (Ret (true,
                          "Patch applied successfully!" +:+ newline +:+
                          "New file size: " +:+ format_grouped (getsize t)
                            +:+ " bytes (" +:+ format_mb (getsize t) +:+
                            " MB)"),
                     World (self w)
                       (<[esm_path := t]>
                          (delete (esm_path +:+ ".patched") d)))
                | None =>
                    (Ret (false, exn_str (FileNotFoundError esm_path)),
                     World (self w) (delete (esm_path +:+ ".patched") d))
                end
          end
        else
          (Ret (false, failure_message returncode stderr), World (self w) d)
    | ProcRaise TimeoutExpired =>
        (Ret (false, "Patching process timed out"),
         World (self w) (delete (esm_path +:+ ".patched") d))
    | ProcRaise e =>
        (Ret (false, exn_str e),
         World (self w) (delete (esm_path +:+ ".patched") d))
    end.
Proof.
  unfold apply_patch_cmd. intros Hrun. by rewrite apply_patch_run, Hrun.
Qed.


(** X8. Under the tool contract, [apply_patch] changes no file other
    than the asset and its temporary output file, whatever it
    returns. *)
Theorem apply_patch_touches_only esm_path pinfo w ok msg w' p :
  writes_only_output subprocess_run →
  apply_patch subprocess_run esm_path pinfo w = (Ret (ok, msg), w') →
  p ≠ esm_path → p ≠ esm_path +:+ ".patched" →
  disk w' !! p = disk w !! p.
Proof.
  intros Htool Hrun Hp1 Hp2.
  pose proof (Htool (xdelta_path (self w)) esm_path
    (os_path_join (assets_dir (self w)) (pi_patch pinfo))
    (esm_path +:+ ".patched") (disk w) p Hp2) as Hd.
  rewrite apply_patch_run in Hrun.
  destruct (subprocess_run _ (disk w)) as [r d]. simpl in Hd.
  rewrite <- Hd. clear Hd.
  destruct r as [returncode stderr|e].
  - destruct (returncode =? 0); [|by simplify_eq/=].
    destruct (d !! (esm_path +:+ ".patched")) as [t|]; [|by simplify_eq/=].
    destruct (getsize t <? 50000000).
    { simplify_eq/=. by rewrite lookup_delete_ne. }
    destruct (d !! esm_path); simplify_eq/=.
    + by rewrite lookup_insert_ne, lookup_delete_ne.
    + by rewrite lookup_delete_ne.
  - destruct e; simplify_eq/=; by rewrite lookup_delete_ne.
Qed.

(** X9. The temporary output file is on the disk after [apply_patch]
    only in one case: the process completed with a non-zero return code.
    Then the method has returned [False] with the failure message and
    the disk is exactly as the process left it. *)
Theorem apply_patch_temp_left_only_on_failure_exit esm_path pinfo w ok msg w' :
  apply_patch subprocess_run esm_path pinfo w = (Ret (ok, msg), w') →
  is_Some (disk w' !! (esm_path +:+ ".patched")) →
  ∃ returncode stderr,
    subprocess_run (apply_patch_cmd (self w) esm_path pinfo) (disk w)
    = (Completed returncode stderr, disk w')
    ∧ returncode ≠ 0
    ∧ ok = false
    ∧ msg = failure_message returncode stderr.
Proof.
  destruct (subprocess_run (apply_patch_cmd (self w) esm_path pinfo) (disk w))
    as [r d] eqn:Hrun.
  rewrite (apply_patch_run_cmd _ _ _ _ _ Hrun).
  assert (Hgone : ∀ m : disk_t B,
    ¬ is_Some (delete (esm_path +:+ ".patched") m
               !! (esm_path +:+ ".patched"))).
  { intros m [? Hx]. by rewrite lookup_delete_eq in Hx. }
  destruct r as [returncode stderr|e].
  - destruct (Z.eqb_spec returncode 0) as [->|Hrc].
    + destruct (d !! (esm_path +:+ ".patched")) as [t|] eqn:Ht.
      * destruct (getsize t <? 50000000).
        { intros ? Hs; simplify_eq/=. by destruct (Hgone _ Hs). }
        destruct (d !! esm_path); intros ? Hs; simplify_eq/=.
        -- rewrite lookup_insert_ne in Hs by (apply not_eq_sym, patched_ne).
           by destruct (Hgone _ Hs).
        -- by destruct (Hgone _ Hs).
      * by intros ? [? Hs]; simplify_eq/=.
    + intros ? _; simplify_eq/=. by exists returncode, stderr.
  - destruct e; intros ? Hs; simplify_eq/=; by destruct (Hgone _ Hs).
Qed.


Lemma create_backup_success esm_path w msg w1 :
  create_backup askyesno esm_path w = (Ret (true, msg), w1) →
  ∃ c, disk w !! esm_path = Some c
       ∧ disk w1 = <[esm_path +:+ ".backup" := c]> (disk w)
       ∧ backup_created (self w1) = true.
Proof.
  rewrite create_backup_run. simpl.
  destruct (_ && _); [intros; by simplify_eq|].
  destruct (disk w !! esm_path) as [c|]; intros; simplify_eq/=.
  by exists c.
Qed.

Lemma main_patch_run esm_path pinfo w :
  main_patch askyesno subprocess_run esm_path pinfo w =
    match create_backup askyesno esm_path w with
    | (Ret (true, _), w1) =>
        match apply_patch subprocess_run esm_path pinfo w1 with
        | (Ret (true, patch_msg), w2) => (Ret (PatchSucceeded patch_msg), w2)
        | (Ret (false, patch_msg), w2) => (Ret (PatchFailed patch_msg), w2)
        | (Raise e, w2) => (Raise e, w2)
        end
    | (Ret (false, backup_msg), w1) => (Ret (BackupFailed backup_msg), w1)
    | (Raise e, w1) => (Raise e, w1)
    end.
Proof.
  unfold main_patch, mbind, M_bind.
  destruct (create_backup askyesno esm_path w) as [[[[] ?]|?] w1]; simpl;
    [|done..].
  by destruct (apply_patch subprocess_run esm_path pinfo w1)
    as [[[[] ?]|?] w2].
Qed.

(** X10. Backup, patch, restore.  Under the tool contract, after a
    successful [create_backup] and any run of [apply_patch], whether it
    succeeds or fails, [restore_backup] succeeds and the asset has again
    the content it had before the backup. *)
Theorem restore_after_patch esm_path pinfo w msg1 w1 :
  writes_only_output subprocess_run →
  create_backup askyesno esm_path w = (Ret (true, msg1), w1) →
  ∃ ok msg2 w2 w3,
    apply_patch subprocess_run esm_path pinfo w1 = (Ret (ok, msg2), w2)
    ∧ restore_backup esm_path w2
      = (Ret (true, "Successfully restored from backup"), w3)
    ∧ is_Some (disk w !! esm_path)
    ∧ disk w3 !! esm_path = disk w !! esm_path.
Proof.
  intros Htool Hbackup.
  destruct (create_backup_success _ _ _ _ Hbackup) as (c & Hc & Hw1 & _).
  destruct (apply_patch_returns subprocess_run esm_path pinfo w1)
    as (ok & msg2 & w2 & Hpatch).
  assert (Hb2 : disk w2 !! (esm_path +:+ ".backup") = Some c).
  { rewrite (apply_patch_frame _ _ _ _ _ _ _ Htool Hpatch)
      by (apply backup_ne || apply backup_ne_patched).
    rewrite Hw1. apply lookup_insert_eq. }
  exists ok, msg2, w2. eexists. split; [done|].
  rewrite restore_backup_run, Hb2. split; [done|]. simpl.
  rewrite Hc. split; [by eauto|]. apply lookup_insert_eq.
Qed.

(** X11. When the asset already has the content of the backup,
    [restore_backup] succeeds and changes nothing; so a second restore
    right after a successful one returns the same result and leaves the
    world as the first one left it. *)
Theorem restore_backup_idempotent esm_path w :
  (∀ c, disk w !! (esm_path +:+ ".backup") = Some c →
        disk w !! esm_path = Some c →
        restore_backup esm_path w
        = (Ret (true, "Successfully restored from backup"), w))
  ∧ (∀ msg w1,
       restore_backup esm_path w = (Ret (true, msg), w1) →
       restore_backup esm_path w1 = (Ret (true, msg), w1)).
Proof.
  split.
  - intros c Hb Ha. rewrite restore_backup_run, Hb.
    rewrite insert_id by done. by destruct w.
  - intros msg w1. rewrite !restore_backup_run.
    destruct (disk w !! (esm_path +:+ ".backup")) as [c|] eqn:Hb;
      [|intros; by simplify_eq].
    intros ?; simplify_eq/=.
    rewrite lookup_insert_ne by (apply not_eq_sym, backup_ne).
    rewrite Hb. by rewrite insert_insert_eq.
Qed.



End transaction_more.

(** * The command line *)

Section cli_facts.
Context {B : Type} `{!FileData B} `{!Platform}.
Variable askyesno : string → string → bool.
Variable subprocess_run : list string → disk_t B → proc_result * disk_t B.
Implicit Types (w : world B) (d : disk_t B).

Lemma main_patch_returns esm_path pinfo w :
  ∃ status w',
    main_patch askyesno subprocess_run esm_path pinfo w = (Ret status, w').
Proof.
  rewrite main_patch_run.
  destruct (create_backup_returns askyesno esm_path w)
    as (ok & bmsg & w1 & ->).
  destruct ok; [|by eauto].
  destruct (apply_patch_returns subprocess_run esm_path pinfo w1)
    as (ok & pmsg & w2 & ->).
  destruct ok; by eauto.
Qed.

(** [main_cli], run. *)
Lemma main_cli_run esm_path target_version w :
  main_cli askyesno subprocess_run esm_path target_version w =
    let deps := verify_dependencies (self w) (disk w) in
    let version_info := detect_esm_version (disk w) esm_path in
    let targets := vi_available_targets version_info in
    if negb deps.1 then (Ret (MissingDependencies deps.2), w)
    else
      match targets with
      | [] =>
          (Ret (NothingToPatch
                  (bool_decide (vi_version version_info = Some "patched"))),
           w)
      | _ =>
          match select_target target_version targets with
          | None => (Ret (MultipleTargets targets), w)
          | Some target =>
              if bool_decide (target ∈ targets) then
                match get_patch_for_target (disk w) esm_path target with
                | None => (Ret (NoPatchFound target), w)
                | Some pinfo =>
                    match main_patch askyesno subprocess_run esm_path
                            pinfo w with
                    | (Ret status, w') => (Ret (Ran status), w')
                    | (Raise e, w') => (Raise e, w')
                    end
                end
              else (Ret (CannotPatchTo target), w)
          end
      end.
Proof.
  unfold main_cli, mbind, M_bind, get_self, get_disk. simpl.
  destruct (verify_dependencies (self w) (disk w)) as [[] deps_msg];
    simpl; [|done].
  destruct (vi_available_targets _) as [|t0 ts]; [done|].
  destruct (select_target _ _) as [target|]; [|done].
  destruct (bool_decide _); [|done].
  destruct (get_patch_for_target _ _ _) as [pinfo|]; [|done].
  by destruct (main_patch _ _ _ _ _) as [[?|?] ?].
Qed.

Lemma offered_target_has_patch d esm_path target :
  target ∈ vi_available_targets (detect_esm_version d esm_path) →
  ∃ pinfo,
    get_patch_for_target d esm_path target = Some pinfo
    ∧ dict.get (vi_patches (detect_esm_version d esm_path)) target
      = Some (pi_patch pinfo).
Proof.
  rewrite available_targets_keys, <- dict_get_Some.
  unfold get_patch_for_target. intros [patch ->]. by eexists.
Qed.

(** X13. [main] decides before it acts and never raises: it always ends
    with an outcome; the outcome "No patch found for target" cannot
    occur, because a target that passed the membership test has a patch;
    and unless the backup-then-patch sequence was started, the disk and
    the patcher are exactly as before. *)
Theorem main_cli_decides_first esm_path target_version w :
  ∃ outcome w',
    main_cli askyesno subprocess_run esm_path target_version w
    = (Ret outcome, w')
    ∧ (∀ target, outcome ≠ NoPatchFound target)
    ∧ ((∀ status, outcome ≠ Ran status) → w' = w).
Proof.
  rewrite main_cli_run. simpl.
  destruct (negb _); [by eauto|].
  destruct (vi_available_targets _) as [|t0 ts] eqn:Hts; [by eauto|].
  destruct (select_target _ _) as [target|]; [|by eauto].
  destruct (bool_decide_reflect (target ∈ t0 :: ts)) as [Hin|]; [|by eauto].
  rewrite <- Hts in Hin.
  destruct (offered_target_has_patch _ _ _ Hin) as (pinfo & -> & _).
  destruct (main_patch_returns esm_path pinfo w) as (status & w' & ->).
  eexists _, _. split; [done|]. split; [done|].
  intros Hn. by destruct (Hn status).
Qed.

(** X14. When [main] starts the backup-then-patch sequence, the
    dependency check has passed, the target is the one given with
    [--target] or, without that option, the only available one; it is an
    available target of the file, and the patch that is applied is the
    one registered for this target. *)
Theorem main_cli_runs_selected esm_path target_version w status w' :
  main_cli askyesno subprocess_run esm_path target_version w
  = (Ret (Ran status), w') →
  let version_info := detect_esm_version (disk w) esm_path in
  (verify_dependencies (self w) (disk w)).1 = true
  ∧ ∃ target pinfo,
      (target_version = Some target
       ∨ (target_version = None
          ∧ vi_available_targets version_info = [target]))
      ∧ target ∈ vi_available_targets version_info
      ∧ get_patch_for_target (disk w) esm_path target = Some pinfo
      ∧ dict.get (vi_patches version_info) target = Some (pi_patch pinfo)
      ∧ main_patch askyesno subprocess_run esm_path pinfo w
        = (Ret status, w').
Proof.
  rewrite main_cli_run. simpl.
  destruct (verify_dependencies _ _) as [[] ?]; simpl;
    [|intros; by simplify_eq].
  destruct (vi_available_targets _) as [|t0 ts] eqn:Hts;
    [intros; by simplify_eq|].
  destruct (select_target _ _) as [target|] eqn:Hsel;
    [|intros; by simplify_eq].
  destruct (bool_decide_reflect (target ∈ t0 :: ts)) as [Hin|];
    [|intros; by simplify_eq].
  pose proof Hin as Hin'. rewrite <- Hts in Hin'.
  destruct (offered_target_has_patch _ _ _ Hin') as (pinfo & Hget & Hreg).
  rewrite Hget.
  destruct (main_patch _ _ _ _ _) as [[st|?] w2] eqn:Hmain;
    intros; simplify_eq.
  split; [done|]. exists target, pinfo.
  repeat split; try done.
  unfold select_target in Hsel.
  destruct target_version as [t|]; [left; congruence|right].
  split; [done|]. destruct ts; by simplify_eq.
Qed.


End cli_facts.

(** * The window's patch action *)

Section gui_facts.
Context {B : Type} `{!FileData B} `{!Platform}.
Variable askyesno : string → string → bool.
Variable subprocess_run : list string → disk_t B → proc_result * disk_t B.
Implicit Types (w : world B) (d : disk_t B).



End gui_facts.

(** * The dependency check *)

Lemma PATCH_MAPPINGS_items_map :
  list_to_map PATCH_MAPPINGS_items = PATCH_MAPPINGS.
Proof. reflexivity. Qed.


Section dependencies_facts.
Context {B : Type} `{!FileData B} `{!Platform}.
Implicit Types (disk : disk_t B).



End dependencies_facts.

(** * Locating the asset and reading the arguments *)

(** X19. The search for [Fallout4.esm] in a folder returns the first of
    the three locations (the folder itself, then [Data], then [data])
    that exists: the result exists on the disk and every location
    listed before it is missing; the search finds nothing exactly when
    none of the three exists. *)
Theorem find_esm_first `{!Platform} {B}
    (os_path_join3 : string → string → string → string)
    (disk : disk_t B) (folder_path : string) :
  let root := os_path_join folder_path "Fallout4.esm" in
  let in_Data := os_path_join3 folder_path "Data" "Fallout4.esm" in
  let in_data := os_path_join3 folder_path "data" "Fallout4.esm" in
  (∀ found,
     find_esm os_path_join3 disk folder_path = Some found
     ↔ (found = root ∧ is_Some (disk !! root))
       ∨ (found = in_Data ∧ disk !! root = None ∧ is_Some (disk !! in_Data))
       ∨ (found = in_data ∧ disk !! root = None ∧ disk !! in_Data = None
          ∧ is_Some (disk !! in_data)))
  ∧ (find_esm os_path_join3 disk folder_path = None
     ↔ disk !! root = None ∧ disk !! in_Data = None
       ∧ disk !! in_data = None).
Proof.
  intros root in_Data in_data.
  unfold find_esm, search_locations. fold root in_Data in_data. simpl.
  unfold path_exists.
  destruct (disk !! root) as [b1|] eqn:H1;
    [rewrite bool_decide_eq_true_2 by eauto
    |rewrite bool_decide_eq_false_2 by (intros [? ?]; congruence)].
  { split; [|split; [done | by intros [? _]]].
    intros found. split.
    - intros [= <-]. left. eauto.
    - intros [[-> _]|[(_ & ? & _)|(_ & ? & _)]]; done. }
  destruct (disk !! in_Data) as [b2|] eqn:H2;
    [rewrite bool_decide_eq_true_2 by eauto
    |rewrite bool_decide_eq_false_2 by (intros [? ?]; congruence)].
  { split; [|split; [done | by intros (_ & ? & _)]].
    intros found. split.
    - intros [= <-]. right; left. eauto.
    - intros [[_ [? ?]]|[(-> & _)|(_ & _ & ? & _)]]; done. }
  destruct (disk !! in_data) as [b3|] eqn:H3;
    [rewrite bool_decide_eq_true_2 by eauto
    |rewrite bool_decide_eq_false_2 by (intros [? ?]; congruence)].
  { split; [|split; [done | by intros (_ & _ & ?)]].
    intros found. split.
    - intros [= <-]. right; right. eauto.
    - intros [[_ [? ?]]|[(_ & _ & [? ?])|(-> & _)]]; done. }
  split; [|done].
  intros found. split; [done|].
  intros [[_ [? ?]]|[(_ & _ & [? ?])|(_ & _ & _ & [? ?])]]; done.
Qed.

Lemma list_index_Some (x : string) (l : list string) (i : nat) :
  list_index x l = Some i
  ↔ l !! i = Some x ∧ ∀ j, (j < i)%nat → l !! j ≠ Some x.
Proof.
  revert i. induction l as [|y l IH]; intros i; simpl.
  - split; [done | by intros [? _]].
  - destruct (String.eqb_spec y x) as [->|Hne].
    + split.
      * intros [= <-]. split; [done | intros j ?; lia].
      * intros [Hi Hfirst]. destruct i as [|i]; [done|].
        by destruct (Hfirst 0%nat ltac:(lia)).
    + destruct i as [|i].
      * split.
        -- by destruct (list_index x l).
        -- intros [[= ?] _]. done.
      * destruct (list_index x l) as [k|] eqn:Hk; simpl.
        -- split.
           ++ intros [= <-]. destruct (proj1 (IH k) eq_refl) as [Hk1 Hk2].
              split; [done|]. intros [|j] ?; simpl; [congruence|].
              apply Hk2. lia.
           ++ intros [Hi Hfirst]. f_equal.
              assert (Some k = Some i) as [= ->]; [|done].
              apply IH. split; [done|]. intros j ?.
              apply (Hfirst (S j)). lia.
        -- split; [done|]. intros [Hi Hfirst].
           assert (None = Some i); [|done].
           apply IH. split; [done|]. intros j ?.
           apply (Hfirst (S j)). lia.
Qed.

Lemma list_index_None (x : string) (l : list string) :
  list_index x l = None ↔ x ∉ l.
Proof.
  induction l as [|y l IH]; simpl.
  - split; [intros _; apply not_elem_of_nil | done].
  - rewrite not_elem_of_cons. destruct (String.eqb_spec y x) as [->|Hne].
    + split; [done | by intros [? _]].
    + destruct (list_index x l); simpl.
      * split; [done|]. intros [_ Hn]. by apply IH in Hn.
      * split; [|done]. intros _. split; [congruence | by apply IH].
Qed.

Lemma parse_args_run (prog arg1 : string) (rest : list string) :
  parse_args (prog :: arg1 :: rest) =
    if String.eqb arg1 "--help" || String.eqb arg1 "-h" then Help
    else
      match list_index "--target" (prog :: arg1 :: rest) with
      | Some target_idx =>
          match (prog :: arg1 :: rest) !! (target_idx + 1)%nat with
          | Some target_version =>
              if bool_decide (target_version ∈ ["1.10.163"; "nextgen"])
              then Parsed arg1 (Some target_version)
              else InvalidTarget target_version
          | None => TargetNeedsArgument
          end
      | None => Parsed arg1 None
      end.
Proof. reflexivity. Qed.

(** X20. The arguments are read as a path with a target exactly when
    the second argument is the path and is not a help option, the target
    is ["1.10.163"] or ["nextgen"], and it is the argument that follows
    the first occurrence of [--target]. *)
Theorem parse_args_target (argv : list string) (input_path target : string) :
  parse_args argv = Parsed input_path (Some target)
  ↔ argv !! 1%nat = Some input_path
    ∧ input_path ≠ "--help" ∧ input_path ≠ "-h"
    ∧ (target = "1.10.163" ∨ target = "nextgen")
    ∧ ∃ i, argv !! i = Some "--target"
           ∧ (∀ j, (j < i)%nat → argv !! j ≠ Some "--target")
           ∧ argv !! S i = Some target.
Proof.
  destruct argv as [|prog [|arg1 rest]];
    [split; [done | by intros [? _]] ..|].
  rewrite parse_args_run.
  set (argv := prog :: arg1 :: rest).
  change (argv !! 1%nat) with (Some arg1).
  destruct (String.eqb_spec arg1 "--help") as [->|Hh]; simpl orb; cbv iota.
  { split; [done | by intros ([= <-] & ? & _)]. }
  destruct (String.eqb_spec arg1 "-h") as [->|Hh']; cbv iota.
  { split; [done | by intros ([= <-] & _ & ? & _)]. }
  destruct (list_index "--target" argv) as [i|] eqn:Hi.
  - apply list_index_Some in Hi as [Hi1 Hi2].
    replace (i + 1)%nat with (S i) by lia.
    destruct (argv !! S i) as [t|] eqn:Ht.
    + destruct (bool_decide_reflect (t ∈ ["1.10.163"; "nextgen"])) as [Hin|Hin].
      * split.
        -- intros [= <- <-]. repeat split; try done.
           ++ revert Hin. rewrite !elem_of_cons, elem_of_nil. tauto.
           ++ by exists i.
        -- intros ([= <-] & _ & _ & _ & k & Hk1 & Hk2 & Hk3).
           assert (k = i) as ->.
           { destruct (Nat.lt_trichotomy k i) as [?|[?|?]]; [|done|].
             - by destruct (Hi2 k).
             - by destruct (Hk2 i). }
           congruence.
      * split; [done|].
        intros (_ & _ & _ & Hvalid & k & Hk1 & Hk2 & Hk3).
        assert (k = i) as ->.
        { destruct (Nat.lt_trichotomy k i) as [?|[?|?]]; [|done|].
          - by destruct (Hi2 k).
          - by destruct (Hk2 i). }
        destruct Hin. assert (t = target) as -> by congruence.
        rewrite !elem_of_cons. tauto.
    + split; [done|].
      intros (_ & _ & _ & _ & k & Hk1 & Hk2 & Hk3).
      assert (k = i) as ->.
      { destruct (Nat.lt_trichotomy k i) as [?|[?|?]]; [|done|].
        - by destruct (Hi2 k).
        - by destruct (Hk2 i). }
      congruence.
  - split; [done|].
    intros (_ & _ & _ & _ & k & Hk1 & _).
    apply list_index_None in Hi. destruct Hi.
    by eapply list_elem_of_lookup_2.
Qed.

Lemma first_occurrence_unique (x : string) (l : list string) (i k : nat) :
  l !! i = Some x → (∀ j, (j < i)%nat → l !! j ≠ Some x) →
  l !! k = Some x → (∀ j, (j < k)%nat → l !! j ≠ Some x) →
  k = i.
Proof.
  intros Hi1 Hi2 Hk1 Hk2.
  destruct (Nat.lt_trichotomy k i) as [?|[?|?]]; [|done|].
  - by destruct (Hi2 k).
  - by destruct (Hk2 i).
Qed.

(** X21. The other ways the arguments are read.  The window is started
    exactly when there is no argument after the program name; the usage
    is printed exactly when the second argument is [--help] or [-h],
    whatever follows; a path without a target is read exactly when
    [--target] occurs nowhere in the argument list; and the error
    "--target requires a version argument" is reported exactly when the
    first [--target] is the last argument. *)
Theorem parse_args_other (argv : list string) :
  (parse_args argv = GuiMode ↔ (List.length argv ≤ 1)%nat)
  ∧ (parse_args argv = Help
     ↔ argv !! 1%nat = Some "--help" ∨ argv !! 1%nat = Some "-h")
  ∧ (∀ input_path,
       parse_args argv = Parsed input_path None
       ↔ argv !! 1%nat = Some input_path
         ∧ input_path ≠ "--help" ∧ input_path ≠ "-h"
         ∧ "--target" ∉ argv)
  ∧ (parse_args argv = TargetNeedsArgument
     ↔ (∃ input_path,
          argv !! 1%nat = Some input_path
          ∧ input_path ≠ "--help" ∧ input_path ≠ "-h")
       ∧ ∃ i, argv !! i = Some "--target"
              ∧ (∀ j, (j < i)%nat → argv !! j ≠ Some "--target")
              ∧ List.length argv = S i).
Proof.
  destruct argv as [|prog [|arg1 rest]].
  - repeat split; try done; simpl; try lia.
    + by intros [?|?].
    + by intros [? _].
    + by intros [[? [? _]] _].
  - repeat split; try done; simpl; try lia.
    + by intros [?|?].
    + by intros [? _].
    + by intros [[? [? _]] _].
  - rewrite parse_args_run.
    set (argv := prog :: arg1 :: rest).
    change (argv !! 1%nat) with (Some arg1).
    assert (Hlen : ¬ (List.length argv ≤ 1)%nat) by (simpl; lia).
    destruct (String.eqb_spec arg1 "--help") as [->|Hh]; simpl orb; cbv iota.
    { split; [split; [done | intros ?; lia]|].
      split; [split; [by left | done]|].
      split; [intros p; split; [done | by intros ([= <-] & ? & _)]|].
      split; [done | by intros [(p & [= <-] & ? & _) _]]. }
    destruct (String.eqb_spec arg1 "-h") as [->|Hh']; cbv iota.
    { split; [split; [done | intros ?; lia]|].
      split; [split; [by right | done]|].
      split; [intros p; split; [done | by intros ([= <-] & _ & ? & _)]|].
      split; [done | by intros [(p & [= <-] & _ & ?) _]]. }
    destruct (list_index "--target" argv) as [i|] eqn:Hi.
    + apply list_index_Some in Hi as [Hi1 Hi2].
      replace (i + 1)%nat with (S i) by lia.
      assert (Hin : "--target" ∈ argv) by (by eapply list_elem_of_lookup_2).
      destruct (argv !! S i) as [t|] eqn:Ht.
      * assert (Hlt : (S i < List.length argv)%nat) by (by eapply lookup_lt_Some).
        split; [by destruct (bool_decide _)|].
        split; [destruct (bool_decide _); split; try done;
                intros [[= ?]|[= ?]]; done|].
        split.
        -- intros input_path. destruct (bool_decide _);
             (split; [done | by intros (_ & _ & _ & ?)]).
        -- destruct (bool_decide _); (split; [done|]);
             intros [_ (k & Hk1 & Hk2 & Hk3)];
             rewrite (first_occurrence_unique _ _ _ _ Hi1 Hi2 Hk1 Hk2) in Hk3;
             lia.
      * apply lookup_ge_None in Ht.
        assert (Hlt : (i < List.length argv)%nat) by (by eapply lookup_lt_Some).
        split; [done|].
        split; [split; [done | intros [[= ?]|[= ?]]; done]|].
        split.
        -- intros input_path. split; [done | by intros (_ & _ & _ & ?)].
        -- split; [|done]. intros _. split; [by eauto|].
           exists i. repeat split; [done..|lia].
    + apply list_index_None in Hi.
      split; [done|].
      split; [split; [done | intros [[= ?]|[= ?]]; done]|].
      split.
      * intros input_path. split.
        -- by intros [= <-].
        -- by intros ([= <-] & _).
      * split; [done|]. intros [_ (k & Hk1 & _)].
        destruct Hi. by eapply list_elem_of_lookup_2.
Qed.

(** * Grouped rendering of sizes *)

Lemma filter_rev {A} (P : A → Prop) `{!∀ x, Decision (P x)} (l : list A) :
  filter P (rev l) = rev (filter P l).
Proof.
  induction l as [|a l IH]; [done|]. simpl.
  rewrite filter_app, IH, !filter_cons, filter_nil.
  destruct (decide (P a)); simpl; [done|]. by rewrite app_nil_r.
Qed.

Lemma commas_rev_filter (l : list ascii) :
  filter (λ c, c ≠ ","%char) (commas_rev l) = filter (λ c, c ≠ ","%char) l.
Proof.
  remember (List.length l) as n eqn:Hn. revert l Hn.
  induction (lt_wf n) as [n _ IH]. intros l ->.
  destruct l as [|a [|b [|c [|d rest]]]]; try reflexivity.
  change (commas_rev (a :: b :: c :: d :: rest))
    with (a :: b :: c :: ","%char :: commas_rev (d :: rest)).
  pose proof (IH (List.length (d :: rest)) ltac:(simpl; lia) (d :: rest)
                eq_refl) as Hrec.
  rewrite (filter_cons _ a), (filter_cons _ b), (filter_cons _ c).
  rewrite (filter_cons _ ","%char), Hrec.
  rewrite (decide_False (P := ","%char ≠ ","%char))
    by (intros Hc; by apply Hc).
  done.
Qed.

Lemma pretty_N_go_no_comma (x : N) (s : string) :
  Forall (λ c, c ≠ ","%char) (list_ascii_of_string s) →
  Forall (λ c, c ≠ ","%char) (list_ascii_of_string (pretty_N_go x s)).
Proof.
  revert s. induction (N.lt_wf_0 x) as [x _ IH]. intros s Hs.
  assert (x = 0 ∨ 0 < x)%N as [->|Hpos] by lia.
  - by rewrite pretty_N_go_0.
  - rewrite pretty_N_go_step by done.
    apply IH; [by apply N.div_lt|]. simpl. constructor; [|done].
    unfold pretty_N_char. by repeat case_match.
Qed.

Lemma pretty_Z_no_comma (n : Z) :
  Forall (λ c, c ≠ ","%char) (list_ascii_of_string (pretty n)).
Proof.
  assert (Hpos : ∀ p : positive,
    Forall (λ c, c ≠ ","%char) (list_ascii_of_string (pretty p))).
  { intros p. unfold pretty, pretty_positive, pretty, pretty_N.
    rewrite decide_False by done.
    apply pretty_N_go_no_comma. constructor. }
  destruct n as [|p|p]; unfold pretty, pretty_Z.
  - by repeat constructor.
  - apply Hpos.
  - simpl. constructor; [done | apply Hpos].
Qed.

Lemma filter_all {A} (P : A → Prop) `{!∀ x, Decision (P x)} (l : list A) :
  Forall P l → filter P l = l.
Proof.
  induction 1 as [|a l Ha _ IH]; [done|].
  rewrite filter_cons, decide_True by done. by rewrite IH.
Qed.

(** X22. The grouped rendering [f"{n:,}"] of a size loses nothing: with
    its commas taken out it is the decimal rendering of the number, so
    two different sizes are never shown alike. *)
Theorem format_grouped_round_trip (n m : Z) :
  strip_commas (format_grouped n) = pretty n
  ∧ (format_grouped n = format_grouped m → n = m).
Proof.
  assert (Hstrip : ∀ k, strip_commas (format_grouped k) = pretty k).
  { intros k. unfold strip_commas, format_grouped.
    assert (Hbody :
      filter (λ c, c ≠ ","%char)
        (rev (commas_rev (rev (list_ascii_of_string (pretty (Z.abs k))))))
      = list_ascii_of_string (pretty (Z.abs k))).
    { rewrite filter_rev, commas_rev_filter, <- filter_rev, rev_involutive.
      apply filter_all, pretty_Z_no_comma. }
    destruct (Z.ltb_spec k 0) as [Hneg|Hnn].
    - destruct k as [|p|p]; try lia. simpl.
      change ("" +:+ ?body) with body.
      rewrite list_ascii_of_string_of_list_ascii, Hbody.
      by rewrite string_of_list_ascii_of_string.
    - rewrite list_ascii_of_string_of_list_ascii, Hbody.
      rewrite string_of_list_ascii_of_string.
      by rewrite Z.abs_eq. }
  split; [apply Hstrip|].
  intros Heq. apply (inj pretty).
  by rewrite <- !Hstrip, Heq.
Qed.

(** * Choosing a target in the window *)

Section gui_analysis_facts.
Context {B : Type} `{!FileData B} `{!Platform}.
Implicit Types (disk : disk_t B) (g : gui_state).

Lemma available_target_names disk esm_path target :
  target ∈ vi_available_targets (detect_esm_version disk esm_path) →
  target = "1.10.163" ∨ target = "nextgen".
Proof.
  destruct (disk !! esm_path) as [b|] eqn:Hb.
  - rewrite (detect_esm_version_present _ _ _ Hb).
    rewrite ESM_VERSIONS_lookup, find_patched_known.
    repeat case_decide; simpl; rewrite ?elem_of_cons, ?elem_of_nil; tauto.
  - rewrite (detect_esm_version_missing _ _ Hb). simpl.
    by intros ?%elem_of_nil.
Qed.

Lemma analyze_file_buttons disk file_path g :
  patch_button (analyze_file disk file_path g) = false
  ∧ gui_patch_info (analyze_file disk file_path g) = None
  ∧ selected_file (analyze_file disk file_path g) = Some file_path
  ∧ target_radio_buttons (analyze_file disk file_path g)
    = vi_available_targets (detect_esm_version disk file_path).
Proof.
  unfold analyze_file.
  destruct (get_file_info disk file_path) as [|size md5 path] eqn:Hinfo.
  - repeat split. unfold detect_esm_version. by rewrite Hinfo.
  - by destruct (vi_available_targets _).
Qed.

(** X23. Analysing a file and clicking a target.  After [analyze_file]
    the Apply button is disabled, no patch is held, and the radio
    buttons are the available targets of the file in their order.  A
    click with the value [target] then enables the Apply button exactly
    when [target] is one of these targets, and the patch then held is
    the one registered for it. *)
Theorem click_target_enables_iff disk file_path g target :
  file_path ≠ "" →
  let analysed := analyze_file disk file_path g in
  let clicked := click_target disk target analysed in
  let version_info := detect_esm_version disk file_path in
  patch_button analysed = false
  ∧ gui_patch_info analysed = None
  ∧ target_radio_buttons analysed = vi_available_targets version_info
  ∧ (patch_button clicked = true ↔ target ∈ target_radio_buttons analysed)
  ∧ (patch_button clicked = true →
     selected_file clicked = Some file_path
     ∧ ∃ pinfo,
         gui_patch_info clicked = Some pinfo
         ∧ get_patch_for_target disk file_path target = Some pinfo
         ∧ dict.get (vi_patches version_info) target = Some (pi_patch pinfo)).
Proof.
  intros Hfile analysed clicked version_info.
  destruct (analyze_file_buttons disk file_path g)
    as (Hbutton & Hinfo & Hsel & Hradio).
  fold analysed in Hbutton, Hinfo, Hsel, Hradio.
  split; [done|]. split; [done|]. split; [done|].
  assert (Hselected : selected (selected_file analysed) = Some file_path).
  { rewrite Hsel. simpl. by destruct (String.eqb_spec file_path ""). }
  assert (Hclicked : clicked =
    if negb (String.eqb target "") && negb (String.eqb target "none") then
      GuiState (selected_file analysed)
        (get_patch_for_target disk file_path target)
        (gui_version_info analysed) target (target_radio_buttons analysed)
        (match get_patch_for_target disk file_path target with
         | Some _ => true
         | None => false
         end)
        (restore_button analysed)
    else
      GuiState (selected_file analysed) (gui_patch_info analysed)
        (gui_version_info analysed) target (target_radio_buttons analysed)
        (patch_button analysed) (restore_button analysed)).
  { unfold clicked, click_target, on_target_selected. simpl.
    by rewrite Hselected. }
  rewrite Hclicked, Hradio. clear Hclicked.
  pose proof (available_target_names disk file_path target) as Hnames.
  fold version_info in Hnames.
  assert (Hget : get_patch_for_target disk file_path target =
    match dict.get (vi_patches version_info) target with
    | Some patch =>
        Some (PatchInfo patch
                (vi_display version_info +:+ arrow +:+ target)
                (vi_version version_info) target)
    | None => None
    end) by done.
  assert (Hkeys : is_Some (dict.get (vi_patches version_info) target)
                  ↔ target ∈ vi_available_targets version_info).
  { unfold version_info. rewrite available_targets_keys. apply dict_get_Some. }
  destruct (String.eqb_spec target "") as [->|Hne1]; simpl.
  { rewrite Hbutton. split; [split; [done|]|done].
    intros [?|?]%Hnames; discriminate. }
  destruct (String.eqb_spec target "none") as [->|Hne2]; simpl.
  { rewrite Hbutton. split; [split; [done|]|done].
    intros [?|?]%Hnames; discriminate. }
  rewrite Hget.
  destruct (dict.get (vi_patches version_info) target) as [patch|] eqn:Hd.
  - split; [split; [intros _; apply Hkeys; by eauto | done]|].
    intros _. split; [done|]. by eexists.
  - split; [|done]. split; [done|].
    intros [? ?]%Hkeys. discriminate.
Qed.

End gui_analysis_facts.

(** * The callers on concrete inputs *)

Example parse_args_samples :
  map parse_args
    [ ["esm_patcher.py"];
      ["esm_patcher.py"; "-h"; "--target"];
      ["esm_patcher.py"; "C:\Games\Fallout 4"];
      ["esm_patcher.py"; "C:\Games\Fallout 4"; "--target"; "nextgen"];
      ["esm_patcher.py"; "C:\Games\Fallout 4"; "--target"; "vr"];
      ["esm_patcher.py"; "C:\Games\Fallout 4"; "--target"];
      ["esm_patcher.py"; "--target"; "1.10.163"] ]
  = [ GuiMode;
      Help;
      Parsed "C:\Games\Fallout 4" None;
      Parsed "C:\Games\Fallout 4" (Some "nextgen");
      InvalidTarget "vr";
      TargetNeedsArgument;
      Parsed "--target" (Some "1.10.163") ].
Proof. reflexivity. Qed.

Example verify_dependencies_nothing_installed :
  verify_dependencies (H:=posix) sample_patcher (disk sample_world)
  = (false,
     "Missing required files: xdelta3.exe, fallout4_323025.xdelta, "
       +:+ "fallout4_322806.xdelta").
Proof. reflexivity. Qed.

Example main_cli_two_targets :
  let w :=
    World sample_patcher
      (<[ esm := file_of_size 330553163 ]> (disk installed_world)) in
  main_cli (H:=posix) answer_no tool_ok esm None w
  = (Ret (MultipleTargets ["1.10.163"; "nextgen"]), w).
Proof. vm_compute. reflexivity. Qed.

Example main_cli_wrong_target :
  main_cli (H:=posix) answer_no tool_ok esm (Some "nextgen") installed_world
  = (Ret (CannotPatchTo "nextgen"), installed_world).
Proof. vm_compute. reflexivity. Qed.

Example find_esm_in_Data :
  find_esm (H:=posix) (λ a b c, a +:+ "/" +:+ b +:+ "/" +:+ c)
    ({[ "game/Data/Fallout4.esm" := file_of_size 330777465 ]}
       : disk_t stat_blob) "game"
  = Some "game/Data/Fallout4.esm".
Proof. reflexivity. Qed.

(** * The further properties at concrete inputs *)

Lemma detect_esm_version_unknown_iff_witness :
  let disk : disk_t stat_blob := {[ esm := file_of_size 12345678 ]} in
  vi_version (detect_esm_version (H:=posix) disk esm) = None
  ∧ vi_available_targets (detect_esm_version (H:=posix) disk esm) = [].
Proof.
  intros disk.
  destruct (detect_esm_version_unknown_iff (H:=posix) disk esm
              (file_of_size 12345678) eq_refl) as [Hiff Hpost].
  assert (Hnone : vi_version (detect_esm_version (H:=posix) disk esm) = None).
  { apply Hiff. simpl. lia. }
  split; [exact Hnone|]. exact (proj1 (proj2 (proj2 (Hpost Hnone)))).
Defined.

Lemma available_targets_valid_witness :
  let disk : disk_t stat_blob := {[ esm := file_of_size 330553163 ]} in
  "nextgen" ∈ vi_available_targets (detect_esm_version (H:=posix) disk esm)
  ∧ "nextgen" ∈ ["1.10.163"; "nextgen"]
  ∧ vi_version (detect_esm_version (H:=posix) disk esm) ≠ Some "nextgen".
Proof.
  intros disk.
  assert (Hin : "nextgen"
    ∈ vi_available_targets (detect_esm_version (H:=posix) disk esm)).
  { apply list_elem_of_further, list_elem_of_here. }
  split; [exact Hin|].
  destruct (available_targets_valid (H:=posix) disk esm "nextgen" Hin)
    as (Hvalid & Hne & _).
  split; [exact Hvalid | exact Hne].
Defined.

Lemma detect_esm_version_by_size_witness :
  let disk1 : disk_t stat_blob :=
    {[ esm := StatBlob 330777465 "0123456789abcdef0123456789abcdef" ]} in
  let disk2 : disk_t stat_blob :=
    {[ "Data/Fallout4.esm"
         := StatBlob 330777465 "fedcba9876543210fedcba9876543210" ]} in
  disk1 !! esm ≠ disk2 !! "Data/Fallout4.esm"
  ∧ detect_esm_version (H:=posix) disk1 esm
    = detect_esm_version (H:=posix) disk2 "Data/Fallout4.esm".
Proof.
  intros disk1 disk2. split; [discriminate|].
  exact (detect_esm_version_by_size (H:=posix) disk1 disk2 esm
           "Data/Fallout4.esm" _ _ eq_refl eq_refl eq_refl).
Defined.


Lemma apply_patch_touches_only_witness :
  writes_only_output tool_exit1
  ∧ ∃ w',
      apply_patch (H:=posix) tool_exit1 esm sample_patch backed_up_world
      = (Ret (false, "xdelta3 failed with return code 1"), w')
      ∧ disk w' !! (esm +:+ ".backup")
        = disk backed_up_world !! (esm +:+ ".backup").
Proof.
  split; [apply tool_exit1_contract|].
  eexists. split; [reflexivity|].
  apply (apply_patch_touches_only (H:=posix) tool_exit1 esm sample_patch
           backed_up_world false "xdelta3 failed with return code 1" _
           (esm +:+ ".backup") tool_exit1_contract eq_refl);
    discriminate.
Defined.

Lemma apply_patch_temp_left_only_on_failure_exit_witness :
  ∃ w' returncode,
    apply_patch (H:=posix) tool_exit1 esm sample_patch sample_world
    = (Ret (false, "xdelta3 failed with return code 1"), w')
    ∧ is_Some (disk w' !! (esm +:+ ".patched"))
    ∧ returncode ≠ 0.
Proof.
  eexists.
  destruct (apply_patch_temp_left_only_on_failure_exit (H:=posix) tool_exit1
              esm sample_patch sample_world false
              "xdelta3 failed with return code 1" _ eq_refl)
    as (returncode & stderr & _ & Hrc & _).
  { by eexists. }
  exists returncode. split; [reflexivity|]. split; [by eexists | exact Hrc].
Defined.

Lemma restore_after_patch_witness :
  writes_only_output tool_ok
  ∧ ∃ w1 w2 w3 msg,
      create_backup (H:=posix) answer_no esm sample_world
      = (Ret (true, esm +:+ ".backup"), w1)
      ∧ apply_patch (H:=posix) tool_ok esm sample_patch w1
        = (Ret (true, msg), w2)
      ∧ disk w2 !! esm = Some (file_of_size 330745373)
      ∧ restore_backup (H:=posix) esm w2
        = (Ret (true, "Successfully restored from backup"), w3)
      ∧ disk w3 !! esm = Some (file_of_size 330777465).
Proof.
  split; [apply write_output_contract|].
  destruct (restore_after_patch (H:=posix) answer_no tool_ok esm sample_patch
              sample_world (esm +:+ ".backup") _
              (write_output_contract _ _) eq_refl)
    as (ok & msg2 & w2 & w3 & Hpatch & Hrestore & _ & Hsame).
  eexists _, w2, w3, msg2. split; [reflexivity|].
  assert (Hok : ok = true).
  { revert Hpatch. rewrite apply_patch_run. by intros [= <- _ _]. }
  subst ok. split; [exact Hpatch|]. split.
  - revert Hpatch. rewrite apply_patch_run. by intros [= _ <-].
  - split; [exact Hrestore | exact Hsame].
Defined.


Lemma main_cli_runs_selected_witness :
  ∃ msg w' pinfo,
    main_cli (H:=posix) answer_no tool_ok esm None installed_world
    = (Ret (Ran (PatchSucceeded msg)), w')
    ∧ get_patch_for_target (H:=posix) (disk installed_world) esm "1.10.163"
      = Some pinfo
    ∧ pi_patch pinfo = "fallout4_323025.xdelta".
Proof.
  eassert (Hrun : main_cli (H:=posix) answer_no tool_ok esm None
                    installed_world = (Ret (Ran (PatchSucceeded _)), _))
    by (vm_compute; reflexivity).
  eexists _, _.
  destruct (main_cli_runs_selected (H:=posix) answer_no tool_ok esm None
              installed_world _ _ Hrun)
    as (_ & target & pinfo & [Hsel|[_ Hsel]] & _ & Hget & Hreg & _);
    [discriminate|].
  injection Hsel as <-.
  exists pinfo. split; [exact Hrun|]. split; [exact Hget|].
  injection Hreg as <-. reflexivity.
Defined.





Lemma click_target_enables_iff_witness :
  let disk : disk_t stat_blob := {[ esm := file_of_size 330553163 ]} in
  let clicked :=
    click_target (H:=posix) disk "nextgen"
      (analyze_file (H:=posix) disk esm gui_init) in
  esm ≠ ""
  ∧ patch_button clicked = true
  ∧ ∃ pinfo, gui_patch_info clicked = Some pinfo
             ∧ pi_patch pinfo = "fallout4_vr_to_ng.xdelta".
Proof.
  intros disk clicked. split; [discriminate|].
  destruct (click_target_enables_iff (H:=posix) disk esm gui_init "nextgen")
    as (_ & _ & _ & Hiff & Hpost); [discriminate|].
  assert (Hon : patch_button clicked = true).
  { apply Hiff. apply list_elem_of_further, list_elem_of_here. }
  split; [exact Hon|].
  destruct (Hpost Hon) as (_ & pinfo & Hheld & _ & Hreg).
  exists pinfo. split; [exact Hheld|]. injection Hreg as <-. reflexivity.
Defined.
